(** * Finance dashboard: parsing, normalisation, aggregation and projection

    A shallow embedding of [budget.py] and [dashboard.py].

    - Python [str] values are Rocq [string]s; every character stands for the
      Unicode code point with the same number (code points below 256, so
      "ü" is the single character 252).
    - Python [float] values are the kernel's binary64 floats ([PrimFloat]);
      [float(text)] is computed with [SpecFloat]'s correctly rounded
      operations.
    - [dict]s are [gmap]s, [set]s are [gset]s, raised exceptions are the
      [Raise] branch of [result].  A [gmap] keeps no order of insertion:
      where the code iterates over a [dict], the order is computed from
      the loop that filled it.
    - A CSV file is the list of the records [csv.reader] reads from it,
      each with the number of lines it takes.
    - Library calls whose result depends on the Python version or on the C
      library ([datetime.fromisoformat], the year of [strftime], the
      general case of [**]) are parameters of the development. *)

From Stdlib Require Import ZArith String Ascii List Floats Permutation Lia.
From Stdlib Require Import DecimalString.
From stdpp Require Import base option list gmap strings sorting.

Set Warnings "-inexact-float".
Local Open Scope string_scope.
Local Open Scope Z_scope.

(** ** The Python runtime, as far as the two modules use it *)

Module Py.

(** Exceptions carry their message; both modules raise [ValueError] only,
    and so do [float()], [datetime.strptime] and [datetime.date]. *)
Inductive exn : Type :=
| ValueError (msg : string).

Definition str_of_exn (e : exn) : string :=
  match e with ValueError msg => msg end.

Inductive result (A : Type) : Type :=
| Ok (a : A)
| Raise (e : exn).
Arguments Ok {A} a.
Arguments Raise {A} e.

Definition bind {A B} (r : result A) (k : A -> result B) : result B :=
  match r with
  | Ok a => k a
  | Raise e => Raise e
  end.

(** [text or ""] for a [str] or [None]. *)
Definition or_empty (text : option string) : string :=
  match text with
  | Some s => s
  | None => ""
  end.

Definition code (c : ascii) : Z := Z.of_N (N_of_ascii c).

Definition chr (z : Z) : ascii := ascii_of_N (Z.to_N z).

(** [str.isspace] on one character. *)
Definition isspace (c : ascii) : bool :=
  let n := code c in
  ((9 <=? n) && (n <=? 13)) || ((28 <=? n) && (n <=? 32))
  || (n =? 133) || (n =? 160).

Definition isdigit (c : ascii) : bool :=
  let n := code c in (48 <=? n) && (n <=? 57).

Definition digit_value (c : ascii) : Z := code c - 48.

Definition digit_char (d : Z) : ascii := chr (48 + d).

Definition is_empty (s : string) : bool :=
  match s with
  | EmptyString => true
  | String _ _ => false
  end.

Fixpoint lstrip_with (sp : ascii -> bool) (s : string) : string :=
  match s with
  | EmptyString => EmptyString
  | String c s' => if sp c then lstrip_with sp s' else s
  end.

Fixpoint rstrip_with (sp : ascii -> bool) (s : string) : string :=
  match s with
  | EmptyString => EmptyString
  | String c s' =>
      let t := rstrip_with sp s' in
      if is_empty t && sp c then EmptyString else String c t
  end.

(** [str.strip()] *)
Definition strip (s : string) : string :=
  lstrip_with isspace (rstrip_with isspace s).

Definition lower_char (c : ascii) : ascii :=
  let n := code c in
  if ((65 <=? n) && (n <=? 90))
     || ((192 <=? n) && (n <=? 222) && negb (n =? 215))
  then chr (n + 32) else c.

(** [str.lower()] *)
Fixpoint lower (s : string) : string :=
  match s with
  | EmptyString => EmptyString
  | String c s' => String (lower_char c) (lower s')
  end.

(** [s.replace(old, new)] for a one-character [old]. *)
Fixpoint replace (old : ascii) (new : string) (s : string) : string :=
  match s with
  | EmptyString => EmptyString
  | String c s' =>
      if Ascii.eqb c old then new +:+ replace old new s'
      else String c (replace old new s')
  end.

Fixpoint contains (c : ascii) (s : string) : bool :=
  match s with
  | EmptyString => false
  | String c' s' => Ascii.eqb c c' || contains c s'
  end.

(** [x in [a, b, ...]] for strings. *)
Definition str_in (x : string) (l : list string) : bool :=
  existsb (String.eqb x) l.

(** [str(n)] for an [int]. *)
Definition str_of_int (n : Z) : string :=
  NilZero.string_of_int (Z.to_int n).

(** *** [repr] of a [str] *)

Definition hex_digit (d : Z) : ascii :=
  if d <? 10 then chr (48 + d) else chr (87 + d).

Definition isprintable (c : ascii) : bool :=
  let n := code c in
  ((32 <=? n) && (n <=? 126)) || ((161 <=? n) && negb (n =? 173)).

Definition repr_char (quote : ascii) (c : ascii) : string :=
  let n := code c in
  if Ascii.eqb c quote || Ascii.eqb c "\" then String "\" (String c "")
  else if n =? 9 then "\t"
  else if n =? 10 then "\n"
  else if n =? 13 then "\r"
  else if isprintable c then String c ""
  else String "\" (String "x" (String (hex_digit (n / 16))
                                  (String (hex_digit (n mod 16)) ""))).

Fixpoint repr_body (quote : ascii) (s : string) : string :=
  match s with
  | EmptyString => EmptyString
  | String c s' => repr_char quote c +:+ repr_body quote s'
  end.

Definition double_quote : ascii := chr 34.

Definition repr (s : string) : string :=
  let quote :=
    if contains "'" s && negb (contains double_quote s)
    then double_quote else "'"%char in
  String quote (repr_body quote s +:+ String quote "").

(** *** [float(text)]

    The accepted texts are those of the language reference: surrounding
    whitespace, an optional sign, then either [inf], [infinity] or [nan] in
    any letter case, or decimal digits with an optional point and an
    optional exponent; single underscores may separate digits.  The
    whitespace [float] drops at both ends is the C locale's, plus the
    non-ASCII spaces: the separators 28 to 31, which [str.strip] removes,
    stay. *)

Definition float_space (c : ascii) : bool :=
  let n := code c in
  ((9 <=? n) && (n <=? 13)) || (n =? 32) || (n =? 133) || (n =? 160).

(** The float nearest to [(-1)^neg * m * 10^e]: correctly rounded, ties to
    even, infinite on overflow. *)
Definition decimal_to_float (neg : bool) (m : Z) (e : Z) : float :=
  let v :=
    match m with
    | Zpos p =>
        if 0 <=? e
        then SF2Prim (binary_normalize prec emax (m * 10 ^ e) 0 false)
        else SF2Prim (SFdiv prec emax (S754_finite false p 0)
                        (S754_finite false (Z.to_pos (10 ^ (- e))) 0))
    | _ => 0%float
    end in
  if neg then (- v)%float else v.

Fixpoint span_digits (s : string) : string * string :=
  match s with
  | EmptyString => (EmptyString, EmptyString)
  | String c s' =>
      if isdigit c
      then let '(d, r) := span_digits s' in (String c d, r)
      else (EmptyString, s)
  end.

Fixpoint digits_value (acc : Z) (s : string) : Z :=
  match s with
  | EmptyString => acc
  | String c s' => digits_value (10 * acc + digit_value c) s'
  end.

(** Optional sign: [true] for "-". *)
Definition parse_sign (s : string) : bool * string :=
  match s with
  | String "-" s' => (true, s')
  | String "+" s' => (false, s')
  | _ => (false, s)
  end.

(** The words the parser knows, after the sign, compared without case. *)
Definition parse_inf_or_nan (neg : bool) (s : string) : option float :=
  let w := lower s in
  if String.eqb w "inf" || String.eqb w "infinity"
  then Some (if neg then neg_infinity else infinity)
  else if String.eqb w "nan" then Some nan
  else None.

(** The exponent part: nothing, or [e]/[E], an optional sign and at least
    one digit, up to the end of the text. *)
Definition parse_exponent (s : string) : option Z :=
  match s with
  | EmptyString => Some 0
  | String c s' =>
      if Ascii.eqb c "e" || Ascii.eqb c "E" then
        let '(eneg, s1) := parse_sign s' in
        let '(ds, rest) := span_digits s1 in
        if is_empty ds || negb (is_empty rest) then None
        else Some (if eneg then - digits_value 0 ds else digits_value 0 ds)
      else None
  end.

Definition parse_decimal (neg : bool) (s : string) : option float :=
  let '(ip, s1) := span_digits s in
  let '(fp, s2) :=
    match s1 with
    | String "." s1' => span_digits s1'
    | _ => (EmptyString, s1)
    end in
  if is_empty ip && is_empty fp then None
  else
    match parse_exponent s2 with
    | Some e =>
        Some (decimal_to_float neg (digits_value 0 (ip +:+ fp))
                (e - Z.of_nat (String.length fp)))
    | None => None
    end.

(** Underscores are dropped when each one stands between two digits. *)
Fixpoint remove_underscores (prev : ascii) (s : string) : option string :=
  match s with
  | EmptyString => if Ascii.eqb prev "_" then None else Some EmptyString
  | String c s' =>
      if Ascii.eqb c "_" then
        if isdigit prev then remove_underscores c s' else None
      else if Ascii.eqb prev "_" && negb (isdigit c) then None
      else
        match remove_underscores c s' with
        | Some t => Some (String c t)
        | None => None
        end
  end.

Definition float_literal (s : string) : option float :=
  match remove_underscores Ascii.zero s with
  | None => None
  | Some t =>
      let '(neg, body) := parse_sign t in
      match parse_inf_or_nan neg body with
      | Some v => Some v
      | None => parse_decimal neg body
      end
  end.

(** [float(text)] *)
Definition builtin_float (text : string) : result float :=
  match float_literal
          (lstrip_with float_space (rstrip_with float_space text)) with
  | Some v => Ok v
  | None =>
      Raise (ValueError ("could not convert string to float: " +:+ repr text))
  end.

(** *** Sums over amounts

    The amount arithmetic is a parameter: the program runs it on binary64
    ([float_zero], [float_add], [float_sub] below). *)

Section arithmetic.
Context {num : Type} (zero : num) (add : num -> num -> num).

(** [d[k] += a] on a [defaultdict(float)]. *)
Definition defaultdict_add (d : gmap string num) (k : string) (a : num)
  : gmap string num :=
  <[k := add (default zero (d !! k)) a]> d.

(** [d[m][k] += a] on a [defaultdict] of [defaultdict(float)]. *)
Definition defaultdict_add2 (d : gmap string (gmap string num))
    (m k : string) (a : num) : gmap string (gmap string num) :=
  <[m := defaultdict_add (default ∅ (d !! m)) k a]> d.

(** [sum(values)] over a sequence: from the left, starting at 0.  (From
    Python 3.12 on, [sum] over floats compensates the rounding errors of
    the additions; that changes no sum where the addition is exact.) *)
Definition sum (values : list num) : num := fold_left add values zero.

(** The values of [d] in the map's own order, which is not the order of
    [d.values()]: Python lists them in the order the keys were inserted.
    Statements about the values quantify over every ordering of this list;
    where the code adds [d.values()] up, the order is that of
    [values_in]. *)
Definition values (d : gmap string num) : list num :=
  (map_to_list d).*2.

(** [d.values()] of a dictionary whose keys were inserted in the order
    [keys]. *)
Definition values_in (keys : list string) (d : gmap string num) : list num :=
  omap (fun k => d !! k) keys.

End arithmetic.

(** The order in which a loop that runs [d[k] += ...] over [keys] inserts
    the keys into [d]: every key at its first occurrence. *)
Definition insertion_order (keys : list string) : list string :=
  fold_left
    (fun seen k => if str_in k seen then seen else (seen ++ [k])%list)
    keys [].

(** [float(n)] for an [int], as arithmetic with a float operand converts
    it: correctly rounded, [None] for the [OverflowError] of an integer
    beyond the floats. *)
Definition float_of_int (n : Z) : option float :=
  let v := SF2Prim (binary_normalize prec emax n 0 false) in
  if is_infinity v then None else Some v.

Section power.

(** [v ** w] where the result is the C library's [pow]: [None] when the
    operation raises ([OverflowError], [ZeroDivisionError]) or leaves the
    floats (a negative [v] with a fractional [w] gives a [complex]). *)
Variable pow_rest : float -> float -> option float.

(** [v ** w] on floats.  The interpreter itself answers [1.0] for a zero
    exponent and for the base [1.0]; every other case is [pow_rest]. *)
Definition float_pow (v w : float) : option float :=
  if (w =? 0)%float then Some 1%float
  else if (v =? 1)%float then Some 1%float
  else pow_rest v w.

End power.

Definition float_zero : float := 0%float.
Definition float_add (x y : float) : float := (x + y)%float.
Definition float_sub (x y : float) : float := (x - y)%float.

(** [sorted] on strings: by code points. *)
Definition sorted (l : list string) : list string :=
  merge_sort String.le l.

End Py.

Notation "'let*' x ':=' e 'in' k" :=
  (Py.bind e (fun x => k))
  (at level 10, x name, e at level 100, k at level 200, only parsing).

(** ** [datetime]: dates, [strptime] and the text of a date *)

Module datetime.
Import Py.

Record date : Type := mk_date { year : Z; month : Z; day : Z }.

Definition is_leap (y : Z) : bool :=
  (y mod 4 =? 0) && (negb (y mod 100 =? 0) || (y mod 400 =? 0)).

Definition days_in_month (y m : Z) : Z :=
  if m =? 2 then (if is_leap y then 29 else 28)
  else if (m =? 4) || (m =? 6) || (m =? 9) || (m =? 11) then 30
  else 31.

(** What the [date] constructor checks. *)
Definition valid_date (d : date) : bool :=
  (1 <=? year d) && (year d <=? 9999)
  && (1 <=? month d) && (month d <=? 12)
  && (1 <=? day d) && (day d <=? days_in_month (year d) (month d)).

(** [date(y, m, d)], [None] when it raises [ValueError]. *)
Definition new_date (y m d : Z) : option date :=
  let r := mk_date y m d in
  if valid_date r then Some r else None.

(** Zero-padded decimal fields, as [%02d] and [%04d] print them. *)
Definition fmt_02d (n : Z) : string :=
  String (digit_char (n / 10 mod 10)) (String (digit_char (n mod 10)) "").

Definition fmt_04d (n : Z) : string :=
  String (digit_char (n / 1000 mod 10))
    (String (digit_char (n / 100 mod 10)) (fmt_02d n)).

(** *** [datetime.strptime(value, fmt).date()]

    The format is compiled to a regular expression, one group per
    directive, each group an ordered list of alternatives of fixed width. *)

Definition char_class : Type := ascii -> bool.

Definition one (c : ascii) : char_class := fun x => Ascii.eqb x c.

Definition range (lo hi : ascii) : char_class :=
  fun x => (code lo <=? code x) && (code x <=? code hi).

(** [3[0-1]|[1-2]\d|0[1-9]|[1-9]| [1-9]], [1[0-2]|0[1-9]|[1-9]] and
    [\d\d\d\d]. *)
Definition alternatives (directive : ascii) : list (list char_class) :=
  if Ascii.eqb directive "d" then
    [ [one "3"; range "0" "1"]; [range "1" "2"; isdigit];
      [one "0"; range "1" "9"]; [range "1" "9"]; [one " "; range "1" "9"] ]
  else if Ascii.eqb directive "m" then
    [ [one "1"; range "0" "2"]; [one "0"; range "1" "9"]; [range "1" "9"] ]
  else if Ascii.eqb directive "Y" then
    [ [isdigit; isdigit; isdigit; isdigit] ]
  else [].

Inductive token : Type :=
| Directive (c : ascii)
| Literal (c : ascii).

Fixpoint compile (fmt : string) : list token :=
  match fmt with
  | String "%" (String c rest) => Directive c :: compile rest
  | String c rest => Literal c :: compile rest
  | EmptyString => []
  end.

(** One alternative against the front of the text: the matched text and
    what follows it. *)
Fixpoint match_alt (alt : list char_class) (s : string)
  : option (string * string) :=
  match alt with
  | [] => Some (EmptyString, s)
  | p :: alt' =>
      match s with
      | String c s' =>
          if p c then
            match match_alt alt' s' with
            | Some (txt, rest) => Some (String c txt, rest)
            | None => None
            end
          else None
      | EmptyString => None
      end
  end.

Definition groups : Type := list (ascii * string).

(** The alternatives of one group, in order: the first one that matches
    and lets the rest of the pattern, [k], match as well. *)
Fixpoint try_alts {R : Type} (alts : list (list char_class)) (s : string)
    (k : string -> string -> option R) : option R :=
  match alts with
  | [] => None
  | alt :: alts' =>
      match match_alt alt s with
      | Some (txt, rest) =>
          match k txt rest with
          | Some r => Some r
          | None => try_alts alts' s k
          end
      | None => try_alts alts' s k
      end
  end.

(** The regular expression's match at the start of the text, with the
    groups it found and the text it left. *)
Fixpoint re_match (toks : list token) (s : string) (found : groups)
  : option (groups * string) :=
  match toks with
  | [] => Some (found, s)
  | Literal c :: toks' =>
      match s with
      | String c' s' =>
          if Ascii.eqb c' c then re_match toks' s' found else None
      | EmptyString => None
      end
  | Directive d :: toks' =>
      try_alts (alternatives d) s
        (fun txt rest => re_match toks' rest ((d, txt) :: found))
  end.

Fixpoint group (d : ascii) (found : groups) : option string :=
  match found with
  | [] => None
  | (d', txt) :: found' =>
      if Ascii.eqb d' d then Some txt else group d found'
  end.

(** [int(text)] of a matched group: digits, after an optional blank. *)
Definition int_of_group (txt : string) : Z :=
  digits_value 0 (strip txt).

Definition group_int (d : ascii) (default : Z) (found : groups) : Z :=
  match group d found with
  | Some txt => int_of_group txt
  | None => default
  end.

(** [None] when [strptime] raises [ValueError]: no match, unconverted
    text after the match, or a day the calendar does not have. *)
Definition strptime (value fmt : string) : option date :=
  match re_match (compile fmt) value [] with
  | Some (found, EmptyString) =>
      new_date (group_int "Y" 1900 found) (group_int "m" 1 found)
        (group_int "d" 1 found)
  | _ => None
  end.

(** [d.isoformat()], which is also [str(d)]. *)
Definition isoformat (d : date) : string :=
  fmt_04d (year d) +:+ "-" +:+ fmt_02d (month d) +:+ "-" +:+ fmt_02d (day d).

End datetime.

(** ** [csv]: what [csv.DictReader] makes of a file *)

Module csv.

(** A record as [csv.reader] yields it: its fields, and the number of
    lines of the file it was read from, which is more than one when a
    quoted field holds a line break.  A blank line is a record without
    fields. *)
Record record : Type := mk_record {
  fields : list string;
  lines : positive
}.

(** [row == []] *)
Definition blank (cells : list string) : bool :=
  match cells with
  | [] => true
  | _ :: _ => false
  end.

(** The [dict] of a row: [dict(zip(fieldnames, row))], then [None] under
    every field name the row is too short for.  A value [None] is a key
    the map lacks; the cells beyond the header, which go under the key
    [None], are left out. *)
Definition to_row (fieldnames cells : list string) : gmap string string :=
  fold_left (fun d key => delete key d) (drop (length cells) fieldnames)
    (fold_left (fun d kv => <[kv.1 := kv.2]> d) (zip fieldnames cells) ∅).

(** [reader.fieldnames]: the first record, [None] for a file without
    one. *)
Definition fieldnames (file : list record) : option (list string) :=
  match file with
  | [] => None
  | header :: _ => Some (fields header)
  end.

(** The rows of [for row in reader]: the records after the first, without
    the blank ones. *)
Definition rows (file : list record) : list (gmap string string) :=
  match file with
  | [] => []
  | header :: records =>
      map (to_row (fields header))
        (List.filter (fun cells => negb (blank cells)) (map fields records))
  end.

(** The line of the file on which the record at position [i] starts; the
    first line is line 1. *)
Definition line_of (file : list record) (i : nat) : Z :=
  fold_left (fun n r => n + Z.pos (lines r)) (take i file) 1.

End csv.

(** ** [budget.py] *)

Module budget.
Import Py datetime.

Definition O_umlaut : ascii := chr 214.
Definition u_umlaut : ascii := chr 252.

Definition CATEGORY_TO_GROUP : gmap string string :=
  list_to_map
    [ ("Miete", "fix"); ("Krankenkasse", "fix");
      (String O_umlaut "V", "fix"); ("Handy", "fix"); ("Internet", "fix");
      ("Strom", "fix"); ("Abo", "fix");
      ("Restaurant", "want"); ("Kino", "want"); ("Games", "want");
      ("Kleidung", "want"); ("Hobby", "want");
      ("Sparen", "save"); ("Investieren", "save") ].

Definition parse_amount (text : option string) : result float :=
  let text := strip (or_empty text) in
  if String.eqb text "" then Raise (ValueError "amount ist leer")
  else
    let text := replace "'" "" text in
    let text := replace " " "" text in
    let text := replace "," "." text in
    builtin_float text.

Definition formats : list string :=
  [ "%Y-%m-%d"; "%d.%m.%Y"; "%d/%m/%Y"; "%d-%m-%Y" ].

(** The loop over [formats]: the first format that parses wins. *)
Fixpoint try_formats (value : string) (fmts : list string) : option date :=
  match fmts with
  | [] => None
  | fmt :: fmts' =>
      match strptime value fmt with
      | Some d => Some d
      | None => try_formats value fmts'
      end
  end.

Section with_fromisoformat.

(** [datetime.fromisoformat(value).date()], [None] when it raises: the
    texts it accepts differ between Python versions. *)
Variable fromisoformat : string -> option date.

Definition parse_date (text : option string) : result date :=
  let value := strip (or_empty text) in
  if String.eqb value "" then Raise (ValueError "date ist leer")
  else
    match try_formats value formats with
    | Some d => Ok d
    | None =>
        match fromisoformat value with
        | Some d => Ok d
        | None => Raise (ValueError ("Unbekanntes Datumsformat: " +:+ value))
        end
    end.

End with_fromisoformat.

Definition normalize_kind (text : option string) : result string :=
  let value := lower (strip (or_empty text)) in
  if str_in value ["income"; "ein"; "einnahme"; "einnahmen"]
  then Ok "income"
  else if str_in value ["expense"; "aus"; "ausgabe"; "ausgaben"]
  then Ok "expense"
  else Raise (ValueError "kind muss income oder expense sein").

Definition normalize_group (text : option string) : string :=
  let value := lower (strip (or_empty text)) in
  if str_in value ["fix"; "fixkosten"] then "fix"
  else if str_in value
            ["want"; "wunsch"; "w" +:+ String u_umlaut "nsche"; "wuensche"]
  then "want"
  else if str_in value ["save"; "sparen"] then "save"
  else "other".

Definition group_for_category (category : string)
    (group_text : option string) : string :=
  let group_text := strip (or_empty group_text) in
  if String.eqb group_text ""
  then default "other" (CATEGORY_TO_GROUP !! category)
  else normalize_group (Some group_text).

(** A transaction [dict]: its keys are the fields. *)
Record transaction (num : Type) : Type := mk_transaction {
  tx_date : string;
  tx_date_obj : date;
  tx_kind : string;
  tx_amount : num;
  tx_category : string;
  tx_group : string;
  tx_note : string
}.
Arguments mk_transaction {num}.
Arguments tx_date {num}.
Arguments tx_date_obj {num}.
Arguments tx_kind {num}.
Arguments tx_amount {num}.
Arguments tx_category {num}.
Arguments tx_group {num}.
Arguments tx_note {num}.

(** A row of [csv.DictReader]: [row.get(key)] is [row !! key], [None] for
    a column the header lacks and for a cell the line lacks. *)
Abbreviation row := (gmap string string).

Definition required : list string := ["date"; "kind"; "amount"; "category"].

(** The loop over [required]: the first absent column raises. *)
Fixpoint check_required (cols fieldnames : list string) : result unit :=
  match cols with
  | [] => Ok tt
  | col :: cols' =>
      if negb (str_in col fieldnames)
      then Raise (ValueError ("Spalte fehlt: " +:+ col))
      else check_required cols' fieldnames
  end.

Section with_fromisoformat.
Variable fromisoformat : string -> option date.

(** The body of the [try] in [load_transactions]. *)
Definition read_row (r : row) : result (transaction float) :=
  let* kind := normalize_kind (r !! "kind") in
  let* amount := parse_amount (r !! "amount") in
  let category := strip (or_empty (r !! "category")) in
  if String.eqb category "" then Raise (ValueError "category ist leer")
  else
    let group := group_for_category category (r !! "group") in
    let date := strip (or_empty (r !! "date")) in
    let* date_obj := parse_date fromisoformat (r !! "date") in
    Ok (mk_transaction date date_obj kind amount category group
          (strip (or_empty (r !! "note")))).

(** The loop over the reader's rows, [line_nr] counting from the header. *)
Fixpoint load_rows (line_nr : Z) (transactions : list (transaction float))
    (rows : list row) : result (list (transaction float)) :=
  match rows with
  | [] => Ok transactions
  | r :: rows' =>
      let line_nr := line_nr + 1 in
      match read_row r with
      | Ok tx => load_rows line_nr (transactions ++ [tx]) rows'
      | Raise e =>
          Raise (ValueError ("Fehler in Zeile " +:+ str_of_int line_nr
                             +:+ ": " +:+ str_of_exn e))
      end
  end.

(** [load_transactions], on what [csv.DictReader] hands over: the header
    ([csv.fieldnames], [None] for a file with no line) and the data rows
    in file order ([csv.rows]). *)
Definition load_transactions (fieldnames : option (list string))
    (rows : list row) : result (list (transaction float)) :=
  match fieldnames with
  | None => Raise (ValueError "CSV hat keine Kopfzeile")
  | Some fieldnames =>
      let* _ := check_required required fieldnames in
      load_rows 1 [] rows
  end.

End with_fromisoformat.

Section amounts.
Context {num : Type} (zero : num) (add sub : num -> num -> num).

Definition compute_totals (transactions : list (transaction num))
  : num * num * num :=
  let '(income, expense) :=
    fold_left
      (fun '(income, expense) tx =>
         if String.eqb (tx_kind tx) "income"
         then (add income (tx_amount tx), expense)
         else (income, add expense (tx_amount tx)))
      transactions (zero, zero) in
  (income, expense, sub income expense).

Definition sum_expenses_by_category
    (transactions : list (transaction num)) : gmap string num :=
  fold_left
    (fun sums tx =>
       if String.eqb (tx_kind tx) "expense"
       then defaultdict_add zero add sums (tx_category tx) (tx_amount tx)
       else sums)
    transactions ∅.

Definition sum_expenses_by_group
    (transactions : list (transaction num)) : gmap string num :=
  fold_left
    (fun sums tx =>
       if String.eqb (tx_kind tx) "expense"
       then defaultdict_add zero add sums (tx_group tx) (tx_amount tx)
       else sums)
    transactions ∅.

End amounts.

Definition o_umlaut : ascii := chr 246.

Definition GROUP_LABEL : gmap string string :=
  list_to_map
    [ ("fix", "Fixkosten");
      ("want", "Pers" +:+ String o_umlaut "nliche W" +:+ String u_umlaut "nsche");
      ("save", "Sparen"); ("other", "Andere") ].

Section with_default_csv_path.

(** [default_csv_path()]: the file [transactions.csv] next to the script,
    wherever that is. *)
Variable default_csv_path : string.

(** The loop of [parse_args] over [argv[1:]], on the pair of [no_plots] and
    [filename]. *)
Definition parse_args (argv : list string) : string * bool :=
  let '(no_plots, filename) :=
    fold_left
      (fun '(no_plots, filename) a =>
         if String.eqb a "--no-plots" then (true, filename)
         else (no_plots, Some a))
      (drop 1 argv) (false, None) in
  (match filename with
   | Some f => f
   | None => default_csv_path
   end, no_plots).

End with_default_csv_path.

End budget.

(** ** [dashboard.py] *)

Module dashboard.
Import Py datetime.

Record ParsedData : Type := mk_ParsedData {
  transactions : list (budget.transaction float);
  warnings : list string
}.

Definition required : gset string :=
  {[ "date"; "kind"; "amount"; "category" ]}.

Section with_fromisoformat.
Variable fromisoformat : string -> option date.

(** The body of the [try] in [parse_transactions_from_upload]. *)
Definition read_row (r : budget.row) : result (budget.transaction float) :=
  let* kind := budget.normalize_kind (r !! "kind") in
  let* amount := budget.parse_amount (r !! "amount") in
  let category := strip (or_empty (r !! "category")) in
  if String.eqb category "" then Raise (ValueError "category ist leer")
  else
    let* date_obj := budget.parse_date fromisoformat (r !! "date") in
    let group := budget.group_for_category category (r !! "group") in
    Ok (budget.mk_transaction (strip (or_empty (r !! "date"))) date_obj
          kind amount category group (strip (or_empty (r !! "note")))).

Fixpoint load_rows (filename : option string) (line_nr : Z)
    (transactions : list (budget.transaction float))
    (rows : list budget.row)
  : result (list (budget.transaction float)) :=
  match rows with
  | [] => Ok transactions
  | r :: rows' =>
      let line_nr := line_nr + 1 in
      match read_row r with
      | Ok tx => load_rows filename line_nr (transactions ++ [tx]) rows'
      | Raise e =>
          Raise (ValueError
                   ("Fehler in Zeile " +:+ str_of_int line_nr +:+ ": "
                    +:+ str_of_exn e +:+ " (Datei: "
                    +:+ (if is_empty (or_empty filename) then "upload"
                         else or_empty filename) +:+ ")"))
      end
  end.

(** [parse_transactions_from_upload], from the [csv.DictReader] on: the
    header ([None] for an empty upload) and the data rows. *)
Definition parse_transactions_from_upload
    (fieldnames : option (list string)) (rows : list budget.row)
    (filename : option string) : result ParsedData :=
  match fieldnames with
  | None => Raise (ValueError "CSV hat keine Kopfzeile")
  | Some fieldnames =>
      let missing := required ∖ list_to_set fieldnames in
      if negb (bool_decide (missing = ∅))
      then Raise (ValueError ("Spalten fehlen: "
                              +:+ String.concat ", "
                                    (sorted (elements missing))))
      else
        let* transactions := load_rows filename 1 [] rows in
        Ok (mk_ParsedData transactions
              (if (length transactions =? 0)%nat
               then ["CSV enth" +:+ String (chr 228)
                       "lt keine Datenzeilen (nur Header?)"]
               else []))
  end.

End with_fromisoformat.

Section amounts.

(** The year as the C library's [strftime] prints it for [%Y]: in decimal,
    with leading zeros up to four digits or without them, by platform and
    Python version (glibc prints the year 999 as "999", Python 3.13 pads
    it). *)
Variable year_text : Z -> string.

Context {num : Type} (zero : num) (add sub : num -> num -> num).

(** [d.strftime("%Y-%m")] *)
Definition month_key (d : date) : string :=
  year_text (year d) +:+ "-" +:+ fmt_02d (month d).

(** The six dictionaries the loop of [compute_aggregates] fills, and
    [months]. *)
Record aggregates : Type := mk_aggregates {
  months : list string;
  monthly_income : gmap string num;
  monthly_expense : gmap string num;
  monthly_cat : gmap string (gmap string num);
  monthly_group : gmap string (gmap string num);
  totals_by_category : gmap string num;
  totals_by_group : gmap string num
}.

(** One turn of the loop; [months] is set after the loop. *)
Definition aggregate_tx (acc : aggregates) (tx : budget.transaction num)
  : aggregates :=
  let m := month_key (budget.tx_date_obj tx) in
  let a := budget.tx_amount tx in
  if String.eqb (budget.tx_kind tx) "income" then
    mk_aggregates (months acc)
      (defaultdict_add zero add (monthly_income acc) m a)
      (monthly_expense acc) (monthly_cat acc) (monthly_group acc)
      (totals_by_category acc) (totals_by_group acc)
  else
    mk_aggregates (months acc)
      (monthly_income acc)
      (defaultdict_add zero add (monthly_expense acc) m a)
      (defaultdict_add2 zero add (monthly_cat acc) m
         (budget.tx_category tx) a)
      (defaultdict_add2 zero add (monthly_group acc) m
         (budget.tx_group tx) a)
      (defaultdict_add zero add (totals_by_category acc)
         (budget.tx_category tx) a)
      (defaultdict_add zero add (totals_by_group acc)
         (budget.tx_group tx) a).

Definition compute_aggregates (transactions : list (budget.transaction num))
  : aggregates :=
  let acc :=
    fold_left aggregate_tx transactions
      (mk_aggregates [] ∅ ∅ ∅ ∅ ∅ ∅) in
  mk_aggregates
    (sorted (elements (dom (monthly_income acc)
                       ∪ dom (monthly_expense acc))))
    (monthly_income acc) (monthly_expense acc) (monthly_cat acc)
    (monthly_group acc) (totals_by_category acc) (totals_by_group acc).

(** The months of [monthly_income] ([income = true]) or of
    [monthly_expense] in the order the loop of [compute_aggregates] inserts
    them: the order of [d.keys()] and [d.values()], which a [gmap] does not
    keep. *)
Definition inserted_months (income : bool)
    (transactions : list (budget.transaction num)) : list string :=
  insertion_order
    (map (fun tx => month_key (budget.tx_date_obj tx))
       (List.filter
          (fun tx => Bool.eqb (String.eqb (budget.tx_kind tx) "income") income)
          transactions)).

(** The summary numbers of [update_figures], from the rebuilt
    transactions: [compute_aggregates], then total income, total expense
    and net, each total summed over the months' values in the order of
    their insertion. *)
Definition summary_totals (transactions : list (budget.transaction num))
  : num * num * num :=
  let agg := compute_aggregates transactions in
  let total_income :=
    sum zero add
      (values_in (inserted_months true transactions) (monthly_income agg)) in
  let total_expense :=
    sum zero add
      (values_in (inserted_months false transactions)
         (monthly_expense agg)) in
  (total_income, total_expense, sub total_income total_expense).

End amounts.

Section with_pow.
Variable pow_rest : float -> float -> option float.

(** [None] stands for a run that raises or continues in [complex]
    arithmetic (an annual rate below -100%). *)
Definition future_value_monthly_contrib (pmt : float) (years : Z)
    (annual_real_rate : float) : option float :=
  if (years <=? 0) || (pmt <=? 0)%float then Some 0%float
  else
    p ← float_pow pow_rest (1 + annual_real_rate)%float (1 / 12)%float;
    let r_m := (p - 1)%float in
    let n := years * 12 in
    if (abs r_m <? 1e-12)%float then
      nf ← float_of_int n; Some (pmt * nf)%float
    else
      nf ← float_of_int n;
      q ← float_pow pow_rest (1 + r_m)%float nf;
      Some (pmt * ((q - 1) / r_m))%float.

End with_pow.

(** *** The transaction store of the callbacks *)

(** A transaction as [handle_upload] stores it: [date_obj] is text. *)
Record stored_transaction : Type := mk_stored_transaction {
  st_date : string;
  st_date_obj : string;
  st_kind : string;
  st_amount : float;
  st_category : string;
  st_group : string;
  st_note : string
}.

(** The list [handle_upload] builds from the parsed transactions. *)
Definition serializable (transactions : list (budget.transaction float))
  : list stored_transaction :=
  map
    (fun tx =>
       mk_stored_transaction (budget.tx_date tx)
         (isoformat (budget.tx_date_obj tx)) (budget.tx_kind tx)
         (budget.tx_amount tx) (budget.tx_category tx) (budget.tx_group tx)
         (budget.tx_note tx))
    transactions.

Section with_fromisoformat.
Variable fromisoformat : string -> option date.

(** The loop of [update_figures] that rebuilds the transactions from the
    store; an error of [parse_date] leaves the callback. *)
Fixpoint rebuild_transactions (transactions : list (budget.transaction float))
    (store_data : list stored_transaction)
  : result (list (budget.transaction float)) :=
  match store_data with
  | [] => Ok transactions
  | tx :: store_data' =>
      let* date_obj := budget.parse_date fromisoformat (Some (st_date_obj tx)) in
      rebuild_transactions
        (transactions
         ++ [budget.mk_transaction (st_date tx) date_obj (st_kind tx)
               (st_amount tx) (st_category tx) (st_group tx) (st_note tx)])
        store_data'
  end.

End with_fromisoformat.

(** *** The savings projection *)

(** [max(0.0, x)]: the second argument wins when it is greater. *)
Definition max_0 (x : float) : float :=
  if (0 <? x)%float then x else 0%float.

(** The monthly saving [update_figures] feeds the projection: from the
    average net per month when the input field is empty, else from the
    number in the field. *)
Definition monthly_saving (avg_net : float)
    (monthly_saving_value : option float) : float :=
  match monthly_saving_value with
  | None => max_0 avg_net
  | Some value => max_0 value
  end.

Definition stock_real : float := 0.07%float.
Definition bank_real : float := (-0.01)%float.
Definition no_infl_no_investing_real : float := 0%float.

(** [list(range(0, 41))] *)
Definition years : list Z := seqZ 0 41.

Section with_pow.
Variable pow_rest : float -> float -> option float.

(** The three series of [fig_savings_projection]: stock, bank, baseline. *)
Definition savings_projection (monthly_saving : float)
  : list (option float) * list (option float) * list (option float) :=
  (map (fun y => future_value_monthly_contrib pow_rest monthly_saving y
                   stock_real) years,
   map (fun y => future_value_monthly_contrib pow_rest monthly_saving y
                   bank_real) years,
   map (fun y => future_value_monthly_contrib pow_rest monthly_saving y
                   no_infl_no_investing_real) years).

End with_pow.

End dashboard.

(** ** Vocabulary of the specification *)

Module Spec.
Import Py datetime.

(** The amount text as [float] receives it: apostrophes and plain spaces
    dropped, commas turned into points. *)
Definition cleaned (text : string) : string :=
  replace "," "." (replace " " "" (replace "'" "" text)).

(** A decimal literal in the specification's sense: an optional sign, then
    digits with at most one decimal point and at least one digit. *)
Definition decimal_literal (s : string) : bool :=
  let '(_, body) := parse_sign s in
  let '(ip, s1) := span_digits body in
  match s1 with
  | EmptyString => negb (is_empty ip)
  | String "." s1' =>
      let '(fp, s2) := span_digits s1' in
      is_empty s2 && negb (is_empty ip && is_empty fp)
  | _ => false
  end.

(** Every character of the text satisfies [p]. *)
Fixpoint str_all (p : ascii -> bool) (s : string) : bool :=
  match s with
  | EmptyString => true
  | String c s' => p c && str_all p s'
  end.

(** "A finite non-negative number". *)
Definition finite_nonneg (v : float) : bool :=
  is_finite v && (0 <=? v)%float.

(** The characters a text [float] accepts is made of: digits, signs, the
    point, the exponent letter, the underscore and the letters of [inf],
    [infinity] and [nan]. *)
Definition float_char (c : ascii) : bool :=
  isdigit c
  || existsb (Ascii.eqb (lower_char c))
       ["+"; "-"; "."; "_"; "e"; "i"; "n"; "f"; "t"; "y"; "a"]%char.

(** The characters an amount text may be made of: those of [float_char],
    the grouping apostrophe, the decimal comma and whitespace. *)
Definition amount_char (c : ascii) : bool :=
  float_char c || isspace c || Ascii.eqb c "'" || Ascii.eqb c ",".

(** The four supported renderings of a date. *)
Definition render_iso (d : date) : string :=
  fmt_04d (year d) +:+ "-" +:+ fmt_02d (month d) +:+ "-" +:+ fmt_02d (day d).

Definition render_dmy (sep : string) (d : date) : string :=
  fmt_02d (day d) +:+ sep +:+ fmt_02d (month d) +:+ sep +:+ fmt_04d (year d).

(** Every required column is in the header. *)
Definition header_complete (fieldnames : list string) : Prop :=
  Forall (fun col => col ∈ fieldnames) budget.required.

(** The kinds the parser produces. *)
Definition valid_kind {num} (tx : budget.transaction num) : Prop :=
  budget.tx_kind tx = "income" \/ budget.tx_kind tx = "expense".

(** What a stored amount is: the value [float] gives the cleaned text of
    the row's amount cell, which is not empty. *)
Definition stores_parsed_amount (r : budget.row)
    (tx : budget.transaction float) : Prop :=
  let text := strip (or_empty (r !! "amount")) in
  text <> "" /\ builtin_float (cleaned text) = Ok (budget.tx_amount tx).

(** The sum a dictionary holds under [k] is [v]. *)
Definition holds (k : string) (v : float) (d : gmap string float) : bool :=
  match d !! k with
  | Some x => (x =? v)%float
  | None => false
  end.

Section expenses.
Context {num : Type} (zero : num) (add : num -> num -> num).

(** The amounts of all transactions but the incomes, added up from
    [e]. *)
Definition add_expenses (e : num) (txs : list (budget.transaction num))
  : num :=
  fold_left
    (fun e tx =>
       if String.eqb (budget.tx_kind tx) "income" then e
       else add e (budget.tx_amount tx)) txs e.

(** The same amounts, added into [sums] under the key [key]. *)
Definition add_buckets (key : budget.transaction num -> string)
    (sums : gmap string num) (txs : list (budget.transaction num))
  : gmap string num :=
  fold_left
    (fun sums tx =>
       if String.eqb (budget.tx_kind tx) "income" then sums
       else defaultdict_add zero add sums (key tx) (budget.tx_amount tx))
    txs sums.

End expenses.

(** A file with one record on every line: no blank line, and no line break
    inside a field. *)
Definition one_record_per_line (file : list csv.record) : Prop :=
  Forall (fun r => csv.fields r <> [] /\ csv.lines r = 1%positive) file.

(** The groups of the data model. *)
Definition group_names : list string := ["fix"; "want"; "save"; "other"].

(** What every transaction of the parser satisfies: a canonical kind, a
    category that is not empty, a group of the data model that has a display
    label, texts without surrounding whitespace and a date of the
    calendar. *)
Definition well_formed (tx : budget.transaction float) : Prop :=
  valid_kind tx
  /\ budget.tx_category tx <> ""
  /\ strip (budget.tx_category tx) = budget.tx_category tx
  /\ budget.tx_group tx ∈ group_names
  /\ is_Some (budget.GROUP_LABEL !! budget.tx_group tx)
  /\ strip (budget.tx_date tx) = budget.tx_date tx
  /\ strip (budget.tx_note tx) = budget.tx_note tx
  /\ valid_date (budget.tx_date_obj tx) = true.

(** The dates [fromisoformat] returns are dates of the calendar, as every
    [date] object is. *)
Definition returns_valid_dates (fromisoformat : string -> option date) : Prop :=
  forall value d, fromisoformat value = Some d -> valid_date d = true.

Section months.
Context {num : Type} (zero : num) (add : num -> num -> num).

(** Under every month the sums by category, and the sums by group, add up
    to the expense of the month. *)
Definition months_add_up (acc : dashboard.aggregates) : Prop :=
  forall m,
    sum zero add (values (default ∅ (dashboard.monthly_cat acc !! m)))
    = default zero (dashboard.monthly_expense acc !! m)
    /\ sum zero add (values (default ∅ (dashboard.monthly_group acc !! m)))
       = default zero (dashboard.monthly_expense acc !! m).

End months.

End Spec.

(** ** Sample inputs *)

Module Examples.
Import Py datetime.

(** A stand-in for [fromisoformat] that accepts nothing. *)
Definition no_fromisoformat (value : string) : option date := None.

Definition header : list string :=
  ["date"; "kind"; "amount"; "category"; "group"; "note"].

Definition mk_row (date kind amount category group : string) : budget.row :=
  list_to_map
    [("date", date); ("kind", kind); ("amount", amount);
     ("category", category); ("group", group); ("note", "")].

Definition expense (amount : float) (category group : string)
  : budget.transaction float :=
  budget.mk_transaction "2026-01-05" (mk_date 2026 1 5) "expense" amount
    category group "".

(** The rows of the dashboard's template file. *)
Definition template_rows : list budget.row :=
  [ mk_row "2026-01-01" "income" "1200" "Lohn" "";
    mk_row "2026-01-02" "expense" "600" "Miete" "fix";
    mk_row "2026-01-05" "expense" "45.50" "Restaurant" "want";
    mk_row "2026-01-07" "expense" "200" "Sparen" "save" ].

Definition template_txs : list (budget.transaction float) :=
  [ budget.mk_transaction "2026-01-01" (mk_date 2026 1 1) "income" 1200%float
      "Lohn" "other" "";
    budget.mk_transaction "2026-01-02" (mk_date 2026 1 2) "expense" 600%float
      "Miete" "fix" "";
    budget.mk_transaction "2026-01-05" (mk_date 2026 1 5) "expense" 45.5%float
      "Restaurant" "want" "";
    budget.mk_transaction "2026-01-07" (mk_date 2026 1 7) "expense" 200%float
      "Sparen" "save" "" ].

(** The template with an empty amount in its third data row. *)
Definition rows_with_empty_amount : list budget.row :=
  [ mk_row "2026-01-01" "income" "1200" "Lohn" "";
    mk_row "2026-01-02" "expense" "600" "Miete" "fix";
    mk_row "2026-01-05" "expense" "" "Restaurant" "want";
    mk_row "2026-01-07" "expense" "200" "Sparen" "save" ].

(** One line of a file. *)
Definition line (cells : list string) : csv.record := csv.mk_record cells 1.

(** The template file with an empty amount on its fourth line. *)
Definition file_with_empty_amount : list csv.record :=
  [ line header;
    line ["2026-01-01"; "income"; "1200"; "Lohn"; ""; ""];
    line ["2026-01-02"; "expense"; "600"; "Miete"; "fix"; ""];
    line ["2026-01-05"; "expense"; ""; "Restaurant"; "want"; ""];
    line ["2026-01-07"; "expense"; "200"; "Sparen"; "save"; ""] ].

(** A header without the columns kind and amount, and one data line. *)
Definition file_without_kind : list csv.record :=
  [ line ["date"; "category"]; line ["2026-01-05"; "Miete"] ].

(** The header, a blank line, and an empty amount on line 3. *)
Definition file_with_blank_line : list csv.record :=
  [ line header; line [];
    line ["2026-01-05"; "expense"; ""; "Restaurant"; "want"; ""] ].

(** The header, a record whose note runs over the lines 2 and 3, and an
    empty amount on line 4. *)
Definition file_with_long_note : list csv.record :=
  [ line header;
    csv.mk_record
      ["2026-01-01"; "income"; "1200"; "Lohn"; "";
       String "a" (String (chr 10) "b")] 2;
    line ["2026-01-05"; "expense"; ""; "Restaurant"; "want"; ""] ].

(** Amounts that are no finite non-negative numbers. *)
Definition rows_with_odd_amounts : list budget.row :=
  [ mk_row "2026-01-05" "expense" "-5" "Kino" "";
    mk_row "2026-01-05" "expense" "inf" "Kino" "";
    mk_row "2026-01-05" "expense" "nan" "Kino" "" ].

Definition txs_with_odd_amounts : list (budget.transaction float) :=
  [ expense (-5)%float "Kino" "want"; expense infinity "Kino" "want";
    expense nan "Kino" "want" ].

(** Three expenses of one category, and the same in reverse order. *)
Definition rows_three_tenths : list budget.row :=
  [ mk_row "2026-01-05" "expense" "0.1" "Miete" "";
    mk_row "2026-01-05" "expense" "0.2" "Miete" "";
    mk_row "2026-01-05" "expense" "0.3" "Miete" "" ].

Definition txs_three_tenths : list (budget.transaction float) :=
  [ expense 0.1%float "Miete" "fix"; expense 0.2%float "Miete" "fix";
    expense 0.3%float "Miete" "fix" ].

Definition txs_three_tenths_reversed : list (budget.transaction float) :=
  [ expense 0.3%float "Miete" "fix"; expense 0.2%float "Miete" "fix";
    expense 0.1%float "Miete" "fix" ].

(** Expenses of two categories, the second between two of the first. *)
Definition rows_two_categories : list budget.row :=
  [ mk_row "2026-01-05" "expense" "0.1" "Miete" "";
    mk_row "2026-01-05" "expense" "0.2" "Kino" "";
    mk_row "2026-01-05" "expense" "0.4" "Miete" "" ].

Definition txs_two_categories : list (budget.transaction float) :=
  [ expense 0.1%float "Miete" "fix"; expense 0.2%float "Kino" "want";
    expense 0.4%float "Miete" "fix" ].

(** Amounts in whole Rappen, for exact arithmetic. *)
Definition expense_Z (amount : Z) (category group : string)
  : budget.transaction Z :=
  budget.mk_transaction "2026-01-05" (mk_date 2026 1 5) "expense" amount
    category group "".

Definition txs_Z : list (budget.transaction Z) :=
  [ expense_Z 10 "Miete" "fix"; expense_Z 20 "Kino" "want";
    expense_Z 40 "Miete" "fix" ].

Definition txs_Z_reversed : list (budget.transaction Z) :=
  [ expense_Z 40 "Miete" "fix"; expense_Z 20 "Kino" "want";
    expense_Z 10 "Miete" "fix" ].

End Examples.

(** ** Facts about the runtime model *)

Section runtime_facts.
Import Py.

Lemma or_empty_Some_or_empty (o : option string) :
  or_empty (Some (or_empty o)) = or_empty o.
Proof. reflexivity. Qed.

Lemma or_empty_delete_insert (r : budget.row) (key k : string) :
  or_empty (<[key := ""]> r !! k) = or_empty (delete key r !! k).
Proof.
  destruct (decide (key = k)) as [->|Hne].
  - by rewrite lookup_insert_eq, lookup_delete_eq.
  - by rewrite lookup_insert_ne, lookup_delete_ne.
Qed.

Lemma append_cons (c : ascii) (s1 s2 : string) :
  String c s1 +:+ s2 = String c (s1 +:+ s2).
Proof. reflexivity. Qed.

Lemma append_assoc (s1 s2 s3 : string) :
  (s1 +:+ s2) +:+ s3 = s1 +:+ (s2 +:+ s3).
Proof.
  induction s1 as [|c s1 IH]; [reflexivity|].
  rewrite !append_cons. by rewrite IH.
Qed.

Lemma str_in_spec (x : string) (l : list string) :
  str_in x l = true <-> x ∈ l.
Proof.
  unfold str_in. rewrite existsb_exists. split.
  - intros (y & Hy & Heq). apply String.eqb_eq in Heq. subst.
    by apply list_elem_of_In.
  - intros Hx. exists x. split; [by apply list_elem_of_In|].
    apply String.eqb_refl.
Qed.

End runtime_facts.

(** ** The field normalizers on a missing cell *)

Section missing_cells.
Import Py budget.
Variable fromisoformat : string -> option datetime.date.

Lemma parse_amount_or_empty (o : option string) :
  parse_amount o = parse_amount (Some (or_empty o)).
Proof. reflexivity. Qed.

Lemma parse_date_or_empty (o : option string) :
  parse_date fromisoformat o = parse_date fromisoformat (Some (or_empty o)).
Proof. reflexivity. Qed.

Lemma normalize_kind_or_empty (o : option string) :
  normalize_kind o = normalize_kind (Some (or_empty o)).
Proof. reflexivity. Qed.

Lemma group_for_category_or_empty (category : string) (o : option string) :
  group_for_category category o
  = group_for_category category (Some (or_empty o)).
Proof. reflexivity. Qed.

(** A row is read through [or_empty] of its cells only. *)
Lemma read_row_ext (r1 r2 : row) :
  (forall k, or_empty (r1 !! k) = or_empty (r2 !! k)) ->
  budget.read_row fromisoformat r1 = budget.read_row fromisoformat r2.
Proof.
  intros H. unfold budget.read_row.
  rewrite (normalize_kind_or_empty (r1 !! "kind")),
    (parse_amount_or_empty (r1 !! "amount")),
    (group_for_category_or_empty _ (r1 !! "group")),
    (parse_date_or_empty (r1 !! "date")).
  rewrite !H.
  reflexivity.
Qed.

(** Both loaders read a row alike: the date is parsed before or after the
    group is derived, and deriving the group never raises. *)
Lemma dashboard_read_row (r : row) :
  dashboard.read_row fromisoformat r = budget.read_row fromisoformat r.
Proof.
  unfold dashboard.read_row, budget.read_row.
  destruct (normalize_kind (r !! "kind")); simpl; [|done].
  destruct (parse_amount (r !! "amount")); simpl; [|done].
  by destruct (String.eqb _ "").
Qed.

(** C10: each field normalizer takes a missing cell ([None]) for the empty
    text: the amount and the date fail as empty values, the kind fails as
    invalid, the group falls back to "other"; and a row in which a cell is
    absent is read, by either loader, exactly as the row with that cell
    empty. *)
Theorem normalizers_total_on_missing_cell :
  (parse_amount None = parse_amount (Some "")
   /\ parse_amount None = Raise (ValueError "amount ist leer"))
  /\ (parse_date fromisoformat None = parse_date fromisoformat (Some "")
      /\ parse_date fromisoformat None = Raise (ValueError "date ist leer"))
  /\ (normalize_kind None = normalize_kind (Some "")
      /\ normalize_kind None
         = Raise (ValueError "kind muss income oder expense sein"))
  /\ (normalize_group None = normalize_group (Some "")
      /\ normalize_group None = "other")
  /\ (forall (r : row) (key : string),
        budget.read_row fromisoformat (delete key r)
        = budget.read_row fromisoformat (<[key := ""]> r)
        /\ dashboard.read_row fromisoformat (delete key r)
           = dashboard.read_row fromisoformat (<[key := ""]> r)).
Proof.
  repeat split; try reflexivity.
  - apply read_row_ext. intros k. symmetry. apply or_empty_delete_insert.
  - rewrite !dashboard_read_row.
    apply read_row_ext. intros k. symmetry. apply or_empty_delete_insert.
Qed.

End missing_cells.

(** ** The header check and the fail-fast row loop *)

Section loaders.
Import Py budget.
Variable fromisoformat : string -> option datetime.date.

Lemma check_required_complete (cols fieldnames : list string) :
  Forall (fun col => col ∈ fieldnames) cols ->
  check_required cols fieldnames = Ok tt.
Proof.
  induction 1 as [|col cols Hcol _ IH]; simpl; [done|].
  apply str_in_spec in Hcol. by rewrite Hcol.
Qed.

Lemma missing_empty (fieldnames : list string) :
  Spec.header_complete fieldnames ->
  dashboard.required ∖ list_to_set fieldnames = (∅ : gset string).
Proof.
  unfold Spec.header_complete, budget.required, dashboard.required.
  rewrite !Forall_cons. intros (Hd & Hk & Ha & Hc & _).
  apply set_eq. intros x.
  rewrite elem_of_difference, !elem_of_union, !elem_of_singleton,
    elem_of_list_to_set.
  split; [|set_solver].
  intros [[[[-> | ->] | ->] | ->] Hx]; done.
Qed.

(** The loop on rows that are all read: every row adds its transaction. *)
Lemma load_rows_all_read (rows : list row) :
  forall line_nr acc txs,
    Forall2 (fun r tx => budget.read_row fromisoformat r = Ok tx) rows txs ->
    budget.load_rows fromisoformat line_nr acc rows = Ok (acc ++ txs)%list.
Proof.
  induction rows as [|r rows IH]; intros line_nr acc txs H;
    inversion H as [|? tx ? txs' Hr Hrest]; subst; simpl.
  - by rewrite app_nil_r.
  - rewrite Hr, (IH _ _ txs' Hrest), <- app_assoc. reflexivity.
Qed.

(** The loop on rows of which the one at [length pre] is the first that is
    not read. *)
Lemma load_rows_first_failure (pre : list row) :
  forall line_nr acc txs r e post,
    Forall2 (fun r tx => budget.read_row fromisoformat r = Ok tx) pre txs ->
    budget.read_row fromisoformat r = Raise e ->
    budget.load_rows fromisoformat line_nr acc (pre ++ r :: post)%list
    = Raise (ValueError
               ("Fehler in Zeile "
                +:+ str_of_int (line_nr + Z.of_nat (length pre) + 1)
                +:+ ": " +:+ str_of_exn e)).
Proof.
  induction pre as [|r0 pre IH]; intros line_nr acc txs r e post Hpre Hr;
    inversion Hpre as [|? tx ? txs' Hr0 Hrest]; subst; simpl.
  - rewrite Hr. by rewrite Z.add_0_r.
  - rewrite Hr0, (IH _ _ txs' r e post Hrest Hr).
    by replace (line_nr + 1 + Z.of_nat (length pre) + 1)
      with (line_nr + Z.of_nat (S (length pre)) + 1) by lia.
Qed.

Lemma dashboard_load_rows (filename : option string) (rows : list row) :
  forall line_nr acc,
    dashboard.load_rows fromisoformat filename line_nr acc rows
    = match budget.load_rows fromisoformat line_nr acc rows with
      | Ok txs => Ok txs
      | Raise e =>
          Raise (ValueError
                   (str_of_exn e +:+ " (Datei: "
                    +:+ (if is_empty (or_empty filename) then "upload"
                         else or_empty filename) +:+ ")"))
      end.
Proof.
  induction rows as [|r rows IH]; intros line_nr acc; simpl; [done|].
  rewrite dashboard_read_row.
  destruct (budget.read_row fromisoformat r) as [tx|e]; [apply IH|].
  simpl. do 2 f_equal.
  rewrite !append_assoc. reflexivity.
Qed.

(** Rows split at the first one that is not read. *)
Lemma first_failing_row (rows : list row) :
  Exists (fun r => exists e, budget.read_row fromisoformat r = Raise e) rows ->
  exists pre txs r e post,
    rows = (pre ++ r :: post)%list
    /\ Forall2 (fun r tx => budget.read_row fromisoformat r = Ok tx) pre txs
    /\ budget.read_row fromisoformat r = Raise e.
Proof.
  induction rows as [|r rows IH]; intros H; [by inversion H|].
  destruct (budget.read_row fromisoformat r) as [tx|e] eqn:Hr.
  - inversion H as [? ? (e & He)|? ? Hrest]; subst; [congruence|].
    destruct (IH Hrest) as (pre & txs & r' & e & post & -> & Hpre & Hr').
    exists (r :: pre), (tx :: txs), r', e, post.
    split; [done|]. split; [by constructor|done].
  - exists [], [], r, e, rows. split; [done|]. split; [constructor|done].
Qed.

(** C2, on the header "date,category": [load_transactions] stops at the
    first required column it misses and names that one alone, where the
    upload parser of the dashboard names both missing columns. *)
Theorem load_transactions_names_first_missing_column
    (rows : list row) (filename : option string) :
  budget.load_transactions fromisoformat (Some ["date"; "category"]) rows
  = Raise (ValueError "Spalte fehlt: kind")
  /\ dashboard.parse_transactions_from_upload fromisoformat
       (Some ["date"; "category"]) rows filename
     = Raise (ValueError "Spalten fehlen: amount, kind").
Proof.
  split; [reflexivity|].
  unfold dashboard.parse_transactions_from_upload.
  by vm_compute.
Qed.

(** On the rows the reader yields: when the header is complete and some
    row is not read, either loader fails with one error, which carries
    that row's own message and 2 plus the number of rows before it. *)
Lemma first_failing_row_number
    (fieldnames : list string) (rows : list row) (filename : option string) :
  Spec.header_complete fieldnames ->
  Exists (fun r => exists e, budget.read_row fromisoformat r = Raise e) rows ->
  exists (i : nat) (r : row) (msg : string),
    rows !! i = Some r
    /\ budget.read_row fromisoformat r = Raise (ValueError msg)
    /\ (forall j r', (j < i)%nat -> rows !! j = Some r' ->
          exists tx, budget.read_row fromisoformat r' = Ok tx)
    /\ budget.load_transactions fromisoformat (Some fieldnames) rows
       = Raise (ValueError ("Fehler in Zeile " +:+ str_of_int (Z.of_nat i + 2)
                            +:+ ": " +:+ msg))
    /\ dashboard.parse_transactions_from_upload fromisoformat
         (Some fieldnames) rows filename
       = Raise (ValueError
                  ("Fehler in Zeile " +:+ str_of_int (Z.of_nat i + 2)
                   +:+ ": " +:+ msg +:+ " (Datei: "
                   +:+ (if is_empty (or_empty filename) then "upload"
                        else or_empty filename) +:+ ")")).
Proof.
  intros Hhdr Hfail.
  destruct (first_failing_row rows Hfail)
    as (pre & txs & r & [msg] & post & -> & Hpre & Hr).
  exists (length pre), r, msg.
  assert (Hload : budget.load_rows fromisoformat 1 [] (pre ++ r :: post)%list
                  = Raise (ValueError
                             ("Fehler in Zeile "
                              +:+ str_of_int (Z.of_nat (length pre) + 2)
                              +:+ ": " +:+ msg))).
  { rewrite (load_rows_first_failure pre 1 [] txs r _ post Hpre Hr).
    by replace (1 + Z.of_nat (length pre) + 1)
      with (Z.of_nat (length pre) + 2) by lia. }
  split; [by rewrite list_lookup_middle|].
  split; [done|].
  split.
  { intros j r' Hj Hr'. rewrite lookup_app_l in Hr' by done.
    destruct (Forall2_lookup_l _ _ _ _ _ Hpre Hr') as (tx & _ & Htx).
    by exists tx. }
  split.
  - unfold budget.load_transactions.
    by rewrite (check_required_complete _ _ Hhdr).
  - unfold dashboard.parse_transactions_from_upload.
    rewrite (missing_empty _ Hhdr).
    rewrite bool_decide_eq_true_2 by done. simpl.
    rewrite dashboard_load_rows, Hload. simpl.
    do 2 f_equal. rewrite !append_assoc. reflexivity.
Qed.

(** *** Rows and lines *)

Lemma line_of_fold (l : list csv.record) :
  forall n,
    Forall (fun r => csv.lines r = 1%positive) l ->
    fold_left (fun n r => n + Z.pos (csv.lines r)) l n
    = n + Z.of_nat (length l).
Proof.
  induction l as [|r l IH]; intros n H; simpl; [lia|].
  inversion H as [|? ? Hr Hl]; subst. rewrite (IH _ Hl), Hr. lia.
Qed.

(** In a file with one record on every line, the record at position [i]
    is on line [i + 1]. *)
Lemma line_of_one_record_per_line (file : list csv.record) (i : nat) :
  Spec.one_record_per_line file -> (i <= length file)%nat ->
  csv.line_of file i = Z.of_nat i + 1.
Proof.
  intros H Hi. unfold csv.line_of. rewrite line_of_fold.
  - rewrite length_take. lia.
  - apply Forall_take. eapply Forall_impl; [exact H|]. by intros r [_ Hr].
Qed.

(** Without blank lines every record after the header is a row. *)
Lemma rows_one_record_per_line (header : csv.record)
    (records : list csv.record) :
  Spec.one_record_per_line records ->
  csv.rows (header :: records)
  = map (fun r => csv.to_row (csv.fields header) (csv.fields r)) records.
Proof.
  intros H. simpl. induction H as [|r records [Hr _] _ IH]; simpl; [done|].
  destruct (csv.fields r) as [|c cells] eqn:Hf; [done|]. simpl.
  by rewrite IH.
Qed.


(** The upload parser of the dashboard names every missing column: with a
    required column absent from the header it fails with the message
    "Spalten fehlen: " followed by a sorted list that holds exactly the
    required columns the header lacks, each once. *)
Lemma upload_names_every_missing_column
    (fieldnames : list string) (rows : list row) (filename : option string) :
  ~ Spec.header_complete fieldnames ->
  exists cols : list string,
    dashboard.parse_transactions_from_upload fromisoformat (Some fieldnames)
      rows filename
    = Raise (ValueError ("Spalten fehlen: " +:+ String.concat ", " cols))
    /\ Sorted String.le cols
    /\ NoDup cols
    /\ forall col, col ∈ cols <-> col ∈ budget.required /\ col ∉ fieldnames.
Proof.
  intros Hmiss.
  set (missing := dashboard.required ∖ list_to_set fieldnames : gset string).
  assert (Hin : forall col,
             col ∈ missing <-> col ∈ budget.required /\ col ∉ fieldnames).
  { intros col. unfold missing, dashboard.required, budget.required.
    rewrite elem_of_difference, elem_of_list_to_set.
    rewrite !elem_of_union, !elem_of_singleton, !elem_of_cons, elem_of_nil.
    tauto. }
  assert (Hne : missing <> ∅).
  { intros He. apply Hmiss. apply Forall_forall. intros col Hcol.
    destruct (decide (col ∈ fieldnames)) as [|Hn]; [done|].
    assert (col ∈ missing) as Hc by by apply Hin.
    rewrite He in Hc. by apply not_elem_of_empty in Hc. }
  exists (sorted (elements missing)).
  split; [|split; [|split]].
  - unfold dashboard.parse_transactions_from_upload. fold missing.
    by rewrite bool_decide_eq_false_2.
  - apply Sorted_merge_sort, _.
  - unfold sorted. rewrite merge_sort_Permutation. apply NoDup_elements.
  - intros col. unfold sorted.
    by rewrite merge_sort_Permutation, elem_of_elements.
Qed.

End loaders.

(** ** Errors that do not carry the line of the failing row *)

Section reported_lines.
Import Py budget Examples.

Local Abbreviation load :=
  (fun file =>
     load_transactions no_fromisoformat (csv.fieldnames file)
       (csv.rows file)).
Local Abbreviation upload :=
  (fun file =>
     dashboard.parse_transactions_from_upload no_fromisoformat
       (csv.fieldnames file) (csv.rows file) None).
Local Abbreviation read :=
  (fun names r => read_row no_fromisoformat (csv.to_row names (csv.fields r))).


End reported_lines.

(** ** The texts [float] accepts *)

Section float_texts.
Import Py Spec.

Lemma str_all_append (p : ascii -> bool) (s1 s2 : string) :
  str_all p (s1 +:+ s2) = str_all p s1 && str_all p s2.
Proof.
  induction s1 as [|c s1 IH]; [reflexivity|].
  rewrite append_cons. simpl. by rewrite IH, andb_assoc.
Qed.

Lemma str_all_impl (p q : ascii -> bool) (s : string) :
  (forall c, p c = true -> q c = true) ->
  str_all p s = true -> str_all q s = true.
Proof.
  intros Hpq. induction s as [|c s IH]; simpl; [done|].
  rewrite !andb_true_iff. intros [Hc Hs]. auto.
Qed.

Lemma str_all_lstrip (sp p : ascii -> bool) (s : string) :
  (forall c, sp c = true -> p c = true) ->
  str_all p (lstrip_with sp s) = true -> str_all p s = true.
Proof.
  intros Hsp. induction s as [|c s IH]; simpl; [done|].
  destruct (sp c) eqn:Hc; [|done].
  intros H. by rewrite (Hsp c Hc), (IH H).
Qed.

Lemma str_all_rstrip (sp p : ascii -> bool) (s : string) :
  (forall c, sp c = true -> p c = true) ->
  str_all p (rstrip_with sp s) = true -> str_all p s = true.
Proof.
  intros Hsp. induction s as [|c s IH]; simpl; [done|].
  destruct (is_empty (rstrip_with sp s) && sp c) eqn:Hc; simpl.
  - apply andb_true_iff in Hc as [He Hc]. intros _.
    rewrite (Hsp c Hc). apply IH.
    by destruct (rstrip_with sp s).
  - rewrite !andb_true_iff. intros [-> H]. auto.
Qed.

Lemma str_all_replace (p : ascii -> bool) (old : ascii) (new s : string) :
  p old = true ->
  str_all p (replace old new s) = true -> str_all p s = true.
Proof.
  intros Hold. induction s as [|c s IH]; simpl; [done|].
  destruct (Ascii.eqb c old) eqn:Hc.
  - apply Ascii.eqb_eq in Hc as ->. rewrite str_all_append, Hold.
    rewrite andb_true_iff. intros [_ H]. auto.
  - simpl. rewrite !andb_true_iff. intros [-> H]. auto.
Qed.

Lemma span_digits_spec (s : string) :
  forall d r, span_digits s = (d, r) ->
    s = d +:+ r /\ str_all isdigit d = true.
Proof.
  induction s as [|c s IH]; simpl; intros d r H.
  - by inversion H.
  - destruct (isdigit c) eqn:Hc.
    + destruct (span_digits s) as [d' r'] eqn:Hs. inversion H; subst.
      destruct (IH _ _ eq_refl) as [-> Hd].
      rewrite append_cons. simpl. by rewrite Hc, Hd.
    + by inversion H.
Qed.

Lemma isdigit_float_char (c : ascii) :
  isdigit c = true -> float_char c = true.
Proof. unfold float_char. by intros ->. Qed.

Lemma parse_sign_chars (s body : string) (neg : bool) :
  parse_sign s = (neg, body) ->
  str_all float_char body = true -> str_all float_char s = true.
Proof.
  unfold parse_sign.
  destruct s as [|c s]; [by inversion 1|].
  destruct (decide (c = "-"%char)) as [->|Hm]; [by inversion 1|].
  destruct (decide (c = "+"%char)) as [->|Hp]; [by inversion 1|].
  intros H.
  assert (body = String c s) as ->; [|done].
  destruct c as [[] [] [] [] [] [] [] []]; by inversion H.
Qed.

Lemma str_all_lower (L : list ascii) (s : string) :
  str_all (fun c => existsb (Ascii.eqb c) L) (lower s) = true ->
  str_all (fun c => existsb (Ascii.eqb (lower_char c)) L) s = true.
Proof.
  induction s as [|c s IH]; simpl; [done|].
  rewrite !andb_true_iff. intros [-> H]. auto.
Qed.

Lemma parse_inf_or_nan_chars (neg : bool) (s : string) (v : float) :
  parse_inf_or_nan neg s = Some v -> str_all float_char s = true.
Proof.
  unfold parse_inf_or_nan. intros H.
  apply (str_all_impl
           (fun c => existsb (Ascii.eqb (lower_char c))
                       ["i"; "n"; "f"; "t"; "y"; "a"]%char)).
  { intros c Hc. unfold float_char. simpl in *.
    repeat (apply orb_true_iff in Hc as [Hc|Hc]; [by rewrite Hc, ?orb_true_r|]).
    done. }
  apply str_all_lower.
  destruct (String.eqb (lower s) "inf") eqn:H1.
  { apply String.eqb_eq in H1. by rewrite H1. }
  destruct (String.eqb (lower s) "infinity") eqn:H2.
  { apply String.eqb_eq in H2. by rewrite H2. }
  destruct (String.eqb (lower s) "nan") eqn:H3; [|done].
  apply String.eqb_eq in H3. by rewrite H3.
Qed.

Lemma parse_exponent_chars (s : string) (e : Z) :
  parse_exponent s = Some e -> str_all float_char s = true.
Proof.
  destruct s as [|c s]; simpl; [done|].
  destruct (Ascii.eqb c "e" || Ascii.eqb c "E") eqn:Hc; [|done].
  destruct (parse_sign s) as [eneg s1] eqn:Hsign.
  destruct (span_digits s1) as [ds rest] eqn:Hds.
  destruct (is_empty ds || negb (is_empty rest)) eqn:Hchk; [done|].
  intros _.
  apply orb_false_iff in Hchk as [_ Hrest].
  destruct rest; [|done].
  destruct (span_digits_spec _ _ _ Hds) as [-> Hd].
  apply andb_true_iff. split.
  - apply orb_true_iff in Hc as [Hc|Hc]; apply Ascii.eqb_eq in Hc; by subst.
  - apply (parse_sign_chars _ _ _ Hsign).
    rewrite str_all_append, andb_true_r.
    by apply (str_all_impl isdigit), Hd; apply isdigit_float_char.
Qed.

Lemma parse_decimal_chars (neg : bool) (s : string) (v : float) :
  parse_decimal neg s = Some v -> str_all float_char s = true.
Proof.
  unfold parse_decimal.
  destruct (span_digits s) as [ip s1] eqn:Hip.
  destruct (span_digits_spec _ _ _ Hip) as [-> Hipd].
  assert (Hdig : forall d, str_all isdigit d = true ->
                           str_all float_char d = true).
  { intros d. apply str_all_impl, isdigit_float_char. }
  rewrite str_all_append, (Hdig _ Hipd). simpl.
  destruct s1 as [|c s1'].
  - done.
  - destruct (decide (c = "."%char)) as [->|Hc].
    + destruct (span_digits s1') as [fp s2] eqn:Hfp.
      destruct (span_digits_spec _ _ _ Hfp) as [-> Hfpd].
      destruct (is_empty ip && is_empty fp); [done|].
      destruct (parse_exponent s2) as [e|] eqn:He; [|done].
      intros _. simpl.
      by rewrite str_all_append, (Hdig _ Hfpd), (parse_exponent_chars _ _ He).
    + assert (Hsame :
        match String c s1' with
        | String "." s1'0 => span_digits s1'0
        | _ => (EmptyString, String c s1')
        end = (EmptyString, String c s1')).
      { destruct c as [[] [] [] [] [] [] [] []]; done. }
      rewrite Hsame.
      destruct (is_empty ip && is_empty ""); [done|].
      destruct (parse_exponent (String c s1')) as [e|] eqn:He; [|done].
      intros _. apply (parse_exponent_chars _ _ He).
Qed.

Lemma remove_underscores_chars (s : string) :
  forall prev t,
    remove_underscores prev s = Some t ->
    str_all float_char t = true -> str_all float_char s = true.
Proof.
  induction s as [|c s IH]; simpl; intros prev t H Ht; [done|].
  destruct (Ascii.eqb c "_") eqn:Hc.
  - apply Ascii.eqb_eq in Hc as ->.
    destruct (isdigit prev); [|done]. simpl. eauto.
  - destruct (Ascii.eqb prev "_" && negb (isdigit c)); [done|].
    destruct (remove_underscores c s) as [t'|] eqn:Hrec; [|done].
    inversion H; subst. simpl in Ht.
    apply andb_true_iff in Ht as [-> Ht]. simpl. eauto.
Qed.

(** A text [float] accepts is made of [float_char]s. *)
Lemma float_literal_chars (s : string) (v : float) :
  float_literal s = Some v -> str_all float_char s = true.
Proof.
  unfold float_literal.
  destruct (remove_underscores Ascii.zero s) as [t|] eqn:Ht; [|done].
  destruct (parse_sign t) as [neg body] eqn:Hsign.
  intros H. apply (remove_underscores_chars _ _ _ Ht).
  apply (parse_sign_chars _ _ _ Hsign).
  destruct (parse_inf_or_nan neg body) as [w|] eqn:Hw.
  - apply (parse_inf_or_nan_chars _ _ _ Hw).
  - apply (parse_decimal_chars _ _ _ H).
Qed.

Lemma float_space_isspace (c : ascii) :
  float_space c = true -> isspace c = true.
Proof. destruct c as [[] [] [] [] [] [] [] []]; by vm_compute. Qed.

Lemma isspace_amount_char (c : ascii) :
  isspace c = true -> amount_char c = true.
Proof. unfold amount_char. intros ->. by rewrite orb_true_r. Qed.

Lemma float_char_amount_char (c : ascii) :
  float_char c = true -> amount_char c = true.
Proof. unfold amount_char. by intros ->. Qed.

(** A text [builtin_float] converts is made of [float_char]s and
    whitespace. *)
Lemma builtin_float_chars (s : string) (v : float) :
  builtin_float s = Ok v -> str_all amount_char s = true.
Proof.
  unfold builtin_float.
  destruct (float_literal _) as [w|] eqn:Hw; [|done]. intros _.
  apply float_literal_chars in Hw.
  apply (str_all_impl _ amount_char) in Hw;
    [|apply float_char_amount_char].
  apply (str_all_rstrip float_space);
    [intros c Hc; by apply isspace_amount_char, float_space_isspace|].
  apply (str_all_lstrip float_space), Hw.
  intros c Hc; by apply isspace_amount_char, float_space_isspace.
Qed.

Lemma strip_chars (p : ascii -> bool) (s : string) :
  (forall c, isspace c = true -> p c = true) ->
  str_all p (strip s) = true -> str_all p s = true.
Proof.
  intros Hp H. apply (str_all_rstrip isspace); [done|].
  by apply (str_all_lstrip isspace).
Qed.

Lemma cleaned_chars (s : string) :
  str_all amount_char (cleaned s) = true -> str_all amount_char s = true.
Proof.
  unfold cleaned. intros H.
  apply (str_all_replace _ "'" ""); [done|].
  apply (str_all_replace _ " " ""); [done|].
  by apply (str_all_replace _ "," ".").
Qed.

End float_texts.

(** ** The amount normalizer *)

Section amounts.
Import Py Spec budget.
Variable fromisoformat : string -> option datetime.date.

Lemma parse_amount_empty (text : option string) :
  strip (or_empty text) = "" ->
  parse_amount text = Raise (ValueError "amount ist leer").
Proof. unfold parse_amount. by intros ->. Qed.

Lemma parse_amount_nonempty (text : option string) :
  strip (or_empty text) <> "" ->
  parse_amount text = builtin_float (cleaned (strip (or_empty text))).
Proof.
  unfold parse_amount. intros H.
  destruct (String.eqb _ "") eqn:He; [|done].
  by apply String.eqb_eq in He.
Qed.

(** An accepted amount is the value [float] gives the cleaned text, which
    is not empty. *)
Lemma parse_amount_Ok (text : option string) (v : float) :
  parse_amount text = Ok v ->
  strip (or_empty text) <> ""
  /\ builtin_float (cleaned (strip (or_empty text))) = Ok v.
Proof.
  intros H.
  destruct (decide (strip (or_empty text) = "")) as [He|Hne].
  - by rewrite (parse_amount_empty _ He) in H.
  - by rewrite (parse_amount_nonempty _ Hne) in H.
Qed.

Lemma parse_amount_chars (s : string) (v : float) :
  parse_amount (Some s) = Ok v -> str_all amount_char s = true.
Proof.
  intros H. apply parse_amount_Ok in H as [_ H]. simpl in H.
  apply builtin_float_chars, cleaned_chars in H.
  apply strip_chars, H. apply isspace_amount_char.
Qed.

Lemma read_row_amount (r : row) (tx : transaction float) :
  budget.read_row fromisoformat r = Ok tx ->
  parse_amount (r !! "amount") = Ok (tx_amount tx).
Proof.
  unfold budget.read_row.
  destruct (normalize_kind (r !! "kind")); simpl; [|done].
  destruct (parse_amount (r !! "amount")); simpl; [|done].
  destruct (String.eqb _ ""); [done|].
  destruct (parse_date fromisoformat (r !! "date")); simpl; [|done].
  by inversion 1.
Qed.

Lemma load_rows_Ok (rows : list row) :
  forall line_nr acc out,
    budget.load_rows fromisoformat line_nr acc rows = Ok out ->
    exists txs,
      out = (acc ++ txs)%list
      /\ Forall2 (fun r tx => budget.read_row fromisoformat r = Ok tx)
           rows txs.
Proof.
  induction rows as [|r rows IH]; simpl; intros line_nr acc out H.
  - inversion H; subst. exists []. by rewrite app_nil_r.
  - destruct (budget.read_row fromisoformat r) as [tx|e] eqn:Hr; [|done].
    destruct (IH _ _ _ H) as (txs & -> & Htxs).
    exists (tx :: txs). rewrite <- app_assoc. split; [done|].
    by constructor.
Qed.

Lemma load_transactions_Ok (fieldnames : option (list string))
    (rows : list row) (txs : list (transaction float)) :
  budget.load_transactions fromisoformat fieldnames rows = Ok txs ->
  Forall2 (fun r tx => budget.read_row fromisoformat r = Ok tx) rows txs.
Proof.
  unfold budget.load_transactions.
  destruct fieldnames as [fieldnames|]; [|done].
  destruct (check_required required fieldnames); simpl; [|done].
  intros H. by destruct (load_rows_Ok _ _ _ _ H) as (txs' & -> & Htxs).
Qed.

Lemma parse_transactions_from_upload_Ok (fieldnames : option (list string))
    (rows : list row) (filename : option string)
    (parsed : dashboard.ParsedData) :
  dashboard.parse_transactions_from_upload fromisoformat fieldnames rows
    filename = Ok parsed ->
  Forall2 (fun r tx => budget.read_row fromisoformat r = Ok tx) rows
    (dashboard.transactions parsed).
Proof.
  unfold dashboard.parse_transactions_from_upload.
  destruct fieldnames as [fieldnames|]; [|done].
  destruct (negb _); [done|].
  rewrite dashboard_load_rows.
  destruct (budget.load_rows fromisoformat 1 [] rows) as [txs|e] eqn:Hl;
    simpl; [|done].
  inversion 1; subst; simpl.
  by destruct (load_rows_Ok _ _ _ _ Hl) as (txs' & -> & Htxs).
Qed.

Lemma read_rows_store_parsed_amounts (rows : list row)
    (txs : list (transaction float)) :
  Forall2 (fun r tx => budget.read_row fromisoformat r = Ok tx) rows txs ->
  Forall2 stores_parsed_amount rows txs.
Proof.
  intros H. eapply Forall2_impl; [exact H|].
  intros r tx Hr. by apply parse_amount_Ok, read_row_amount.
Qed.

(** C1, as the code has it: for every row either loader accepts, the stored
    amount is the value Python's [float] gives the cleaned, non-empty
    amount text, one transaction per row and never a default; a file with a
    row whose amount text is empty or is not converted is rejected.  The
    sign and the finiteness of the value are not checked. *)
Theorem accepted_rows_store_the_parsed_amount
    (fieldnames : option (list string)) (rows : list row)
    (filename : option string) :
  (forall txs,
      budget.load_transactions fromisoformat fieldnames rows = Ok txs ->
      Forall2 stores_parsed_amount rows txs)
  /\ (forall parsed,
        dashboard.parse_transactions_from_upload fromisoformat fieldnames
          rows filename = Ok parsed ->
        Forall2 stores_parsed_amount rows (dashboard.transactions parsed))
  /\ (forall r e,
        r ∈ rows -> parse_amount (r !! "amount") = Raise e ->
        (exists e', budget.load_transactions fromisoformat fieldnames rows
                    = Raise e')
        /\ (exists e', dashboard.parse_transactions_from_upload
                         fromisoformat fieldnames rows filename
                       = Raise e')).
Proof.
  split; [|split].
  - intros txs H.
    by apply read_rows_store_parsed_amounts, (load_transactions_Ok _ _ _ H).
  - intros parsed H.
    by apply read_rows_store_parsed_amounts,
      (parse_transactions_from_upload_Ok _ _ _ _ H).
  - intros r e Hr He.
    assert (Hno : forall txs,
               ~ Forall2 (fun r tx => budget.read_row fromisoformat r = Ok tx)
                   rows txs).
    { intros txs Htxs. apply list_elem_of_lookup in Hr as [i Hi].
      destruct (Forall2_lookup_l _ _ _ _ _ Htxs Hi) as (tx & _ & Htx).
      apply read_row_amount in Htx. congruence. }
    split.
    + destruct (budget.load_transactions fromisoformat fieldnames rows)
        as [txs|e'] eqn:Hl; [|by exists e'].
      by destruct (Hno txs (load_transactions_Ok _ _ _ Hl)).
    + destruct (dashboard.parse_transactions_from_upload fromisoformat
                  fieldnames rows filename) as [parsed|e'] eqn:Hl;
        [|by exists e'].
      by destruct (Hno _ (parse_transactions_from_upload_Ok _ _ _ _ Hl)).
Qed.

(** C9, as the code has it: the amount normalizer strips surrounding
    whitespace and rejects the empty text as an empty value; otherwise it
    drops apostrophes and plain spaces, turns commas into points and hands
    the text to Python's [float]: the three spellings of 12500.75 give that
    value, and a text holding any character other than digits, signs, the
    point, the comma, the apostrophe, the underscore, whitespace and the
    letters of [e], [inf], [infinity] and [nan] (so any currency symbol)
    fails as a malformed number. *)
Theorem parse_amount_contract :
  (forall text, strip (or_empty text) = "" ->
                parse_amount text = Raise (ValueError "amount ist leer"))
  /\ (forall text, strip (or_empty text) <> "" ->
                   parse_amount text
                   = builtin_float (cleaned (strip (or_empty text))))
  /\ (parse_amount (Some "12'500,75") = Ok 12500.75%float
      /\ parse_amount (Some "12500.75") = Ok 12500.75%float
      /\ parse_amount (Some "12 500,75") = Ok 12500.75%float)
  /\ (forall s, str_all amount_char s = false ->
                parse_amount (Some s)
                = Raise (ValueError ("could not convert string to float: "
                                     +:+ repr (cleaned (strip s))))).
Proof.
  split; [apply parse_amount_empty|].
  split; [apply parse_amount_nonempty|].
  split; [by vm_compute|].
  intros s Hs.
  destruct (parse_amount (Some s)) as [v|e] eqn:Hp.
  { apply parse_amount_chars in Hp. congruence. }
  assert (Hne : strip s <> "").
  { intros He.
    assert (str_all amount_char s = true); [|congruence].
    apply strip_chars; [apply isspace_amount_char|by rewrite He]. }
  rewrite (parse_amount_nonempty (Some s) Hne) in Hp. simpl in Hp.
  unfold builtin_float in *.
  destruct (float_literal _); [done|]. by rewrite <- Hp.
Qed.

End amounts.

(** ** The date normalizer *)

(** Case analysis on an integer that the context bounds by small constants. *)
Ltac Zcases n :=
  destruct n as [|?p|?p]; try lia;
  repeat match goal with
         | p : positive |- _ => destruct p as [p|p|]; try lia
         end.

Section dates.
Import Py datetime Spec budget.
Variable fromisoformat : string -> option date.

Lemma append_nil_r (s : string) : s +:+ "" = s.
Proof.
  induction s as [|c s IH]; [reflexivity|]. by rewrite append_cons, IH.
Qed.

Lemma isdigit_digit_char (z : Z) : isdigit (digit_char (z mod 10)) = true.
Proof.
  pose proof (Z.mod_pos_bound z 10 ltac:(lia)) as H.
  remember (z mod 10) as k eqn:Hk. clear Hk.
  Zcases k; reflexivity.
Qed.

Lemma digit_value_digit_char (z : Z) :
  digit_value (digit_char (z mod 10)) = z mod 10.
Proof.
  pose proof (Z.mod_pos_bound z 10 ltac:(lia)) as H.
  remember (z mod 10) as k eqn:Hk. clear Hk.
  Zcases k; reflexivity.
Qed.

Lemma isdigit_not_isspace (c : ascii) :
  isdigit c = true -> isspace c = false.
Proof. destruct c as [[] [] [] [] [] [] [] []]; by vm_compute. Qed.

Lemma fmt_02d_digits (n : Z) : str_all isdigit (fmt_02d n) = true.
Proof. unfold fmt_02d. simpl. by rewrite !isdigit_digit_char. Qed.

Lemma fmt_04d_digits (n : Z) : str_all isdigit (fmt_04d n) = true.
Proof.
  unfold fmt_04d, fmt_02d. simpl. by rewrite !isdigit_digit_char.
Qed.

Lemma lstrip_no_space (sp : ascii -> bool) (s : string) :
  str_all (fun c => negb (sp c)) s = true -> lstrip_with sp s = s.
Proof.
  destruct s as [|c s]; simpl; [done|].
  rewrite andb_true_iff, negb_true_iff. by intros [-> _].
Qed.

Lemma rstrip_no_space (sp : ascii -> bool) (s : string) :
  str_all (fun c => negb (sp c)) s = true -> rstrip_with sp s = s.
Proof.
  induction s as [|c s IH]; simpl; [done|].
  rewrite andb_true_iff, negb_true_iff. intros [-> Hs].
  by rewrite (IH Hs), andb_false_r.
Qed.

Lemma strip_no_space (s : string) :
  str_all (fun c => negb (isspace c)) s = true -> strip s = s.
Proof.
  intros H. unfold strip. by rewrite (rstrip_no_space _ _ H), lstrip_no_space.
Qed.

Lemma digits_no_space (s : string) :
  str_all isdigit s = true ->
  str_all (fun c => negb (isspace c)) s = true.
Proof.
  apply str_all_impl. intros c Hc.
  by rewrite (isdigit_not_isspace c Hc).
Qed.

Lemma int_of_group_fmt_02d (n : Z) :
  0 <= n <= 99 -> int_of_group (fmt_02d n) = n.
Proof.
  intros Hn. unfold int_of_group.
  rewrite strip_no_space by apply digits_no_space, fmt_02d_digits.
  unfold fmt_02d. simpl. rewrite !digit_value_digit_char.
  Z.div_mod_to_equations. lia.
Qed.

Lemma int_of_group_fmt_04d (n : Z) :
  0 <= n <= 9999 -> int_of_group (fmt_04d n) = n.
Proof.
  intros Hn. unfold int_of_group.
  rewrite strip_no_space by apply digits_no_space, fmt_04d_digits.
  unfold fmt_04d, fmt_02d. simpl. rewrite !digit_value_digit_char.
  Z.div_mod_to_equations. lia.
Qed.

(** *** Matching one token *)

Lemma re_match_directive (d : ascii) (toks : list token) (s : string)
    (found : groups) :
  re_match (Directive d :: toks) s found
  = try_alts (alternatives d) s
      (fun txt rest => re_match toks rest ((d, txt) :: found)).
Proof. reflexivity. Qed.

Lemma re_match_literal (c : ascii) (toks : list token) (rest : string)
    (found : groups) :
  re_match (Literal c :: toks) (String c "" +:+ rest) found
  = re_match toks rest found.
Proof. simpl. by rewrite Ascii.eqb_refl. Qed.

Lemma re_match_literal_ne (c c' : ascii) (toks : list token)
    (rest : string) (found : groups) :
  c' <> c ->
  re_match (Literal c :: toks) (String c' rest) found = None.
Proof.
  intros Hne. simpl. destruct (Ascii.eqb c' c) eqn:Hc; [|done].
  by apply Ascii.eqb_eq in Hc.
Qed.

Lemma re_match_year (y : Z) (toks : list token) (rest : string)
    (found : groups) :
  re_match (Directive "Y" :: toks) (fmt_04d y +:+ rest) found
  = re_match toks rest (("Y"%char, fmt_04d y) :: found).
Proof.
  rewrite re_match_directive.
  unfold fmt_04d, fmt_02d. rewrite !append_cons. simpl.
  rewrite !isdigit_digit_char.
  by destruct (re_match toks _ _).
Qed.

Lemma re_match_month (m : Z) (toks : list token) (rest : string)
    (found : groups) (r : groups * string) :
  1 <= m <= 12 ->
  re_match toks rest (("m"%char, fmt_02d m) :: found) = Some r ->
  re_match (Directive "m" :: toks) (fmt_02d m +:+ rest) found = Some r.
Proof.
  intros Hm. rewrite re_match_directive.
  Zcases m; intros H; cbv -[re_match] in H |- *; by rewrite H.
Qed.

Lemma re_match_day (d : Z) (toks : list token) (rest : string)
    (found : groups) (r : groups * string) :
  1 <= d <= 31 ->
  re_match toks rest (("d"%char, fmt_02d d) :: found) = Some r ->
  re_match (Directive "d" :: toks) (fmt_02d d +:+ rest) found = Some r.
Proof.
  intros Hd. rewrite re_match_directive.
  Zcases d; intros H; cbv -[re_match] in H |- *; by rewrite H.
Qed.

(** A text whose third character is no digit does not start with a
    year. *)
Lemma re_match_year_short (d : Z) (sep : ascii) (toks : list token)
    (rest : string) (found : groups) :
  isdigit sep = false ->
  re_match (Directive "Y" :: toks) (fmt_02d d +:+ String sep rest) found
  = None.
Proof.
  intros Hsep. rewrite re_match_directive.
  unfold fmt_02d. rewrite !append_cons. simpl.
  by rewrite !isdigit_digit_char, Hsep.
Qed.

(** A day followed by another separator than the format's. *)
Lemma re_match_day_other_separator (sep c : ascii) (d : Z)
    (toks : list token) (rest : string) (found : groups) :
  1 <= d <= 31 -> isdigit sep = false -> c <> sep ->
  re_match (Directive "d" :: Literal sep :: toks)
    (fmt_02d d +:+ String c rest) found = None.
Proof.
  intros Hd Hsep Hc. rewrite re_match_directive.
  Zcases d; cbv -[re_match];
    by rewrite !re_match_literal_ne
      by first [exact Hc | intros <-; by vm_compute in Hsep].
Qed.

(** *** The four formats on the four renderings *)

Lemma valid_date_bounds (d : date) :
  valid_date d = true ->
  1 <= year d <= 9999 /\ 1 <= month d <= 12 /\ 1 <= day d <= 31.
Proof.
  unfold valid_date, days_in_month.
  rewrite !andb_true_iff, !Z.leb_le.
  intros [[[[[? ?] ?] ?] ?] Hd].
  repeat match type of Hd with
         | context [if ?b then _ else _] => destruct b
         end; lia.
Qed.

Lemma new_date_fields (d : date) :
  valid_date d = true ->
  new_date (int_of_group (fmt_04d (year d)))
    (int_of_group (fmt_02d (month d))) (int_of_group (fmt_02d (day d)))
  = Some d.
Proof.
  intros Hv. destruct (valid_date_bounds d Hv) as (Hy & Hm & Hd).
  rewrite int_of_group_fmt_04d, !int_of_group_fmt_02d by lia.
  unfold new_date. destruct d as [y m dd]. simpl in *. by rewrite Hv.
Qed.

Lemma strptime_iso (d : date) :
  valid_date d = true -> strptime (render_iso d) "%Y-%m-%d" = Some d.
Proof.
  intros Hv. destruct (valid_date_bounds d Hv) as (Hy & Hm & Hd).
  unfold strptime, render_iso.
  change (compile "%Y-%m-%d")
    with [Directive "Y"; Literal "-"; Directive "m"; Literal "-";
          Directive "d"].
  rewrite re_match_year, re_match_literal.
  erewrite (re_match_month _ _ _ _
              ([("d"%char, fmt_02d (day d)); ("m"%char, fmt_02d (month d));
                ("Y"%char, fmt_04d (year d))], ""));
    [apply (new_date_fields d Hv)|lia|].
  rewrite re_match_literal, <- (append_nil_r (fmt_02d (day d))).
  by apply re_match_day.
Qed.

Lemma strptime_dmy (d : date) :
  valid_date d = true ->
  strptime (render_dmy "." d) "%d.%m.%Y" = Some d
  /\ strptime (render_dmy "/" d) "%d/%m/%Y" = Some d
  /\ strptime (render_dmy "-" d) "%d-%m-%Y" = Some d.
Proof.
  intros Hv. destruct (valid_date_bounds d Hv) as (Hy & Hm & Hd).
  assert (H : forall sep : ascii,
             match re_match
                     [Directive "d"; Literal sep; Directive "m"; Literal sep;
                      Directive "Y"]
                     (render_dmy (String sep "") d) [] with
             | Some (found, EmptyString) =>
                 new_date (group_int "Y" 1900 found) (group_int "m" 1 found)
                   (group_int "d" 1 found)
             | _ => None
             end = Some d).
  { intros sep. unfold render_dmy.
    erewrite (re_match_day _ _ _ _
                ([("Y"%char, fmt_04d (year d)); ("m"%char, fmt_02d (month d));
                  ("d"%char, fmt_02d (day d))], ""));
      [apply (new_date_fields d Hv)|lia|].
    rewrite re_match_literal.
    apply re_match_month; [lia|].
    rewrite re_match_literal, <- (append_nil_r (fmt_04d (year d))).
    by rewrite re_match_year. }
  split; [apply (H "."%char)|]. split; [apply (H "/"%char)|apply (H "-"%char)].
Qed.

(** No rendering with the day first reads as year-month-day. *)
Lemma strptime_dmy_not_iso (sep : ascii) (d : date) :
  isdigit sep = false ->
  strptime (render_dmy (String sep "") d) "%Y-%m-%d" = None.
Proof.
  intros Hsep. unfold strptime, render_dmy.
  change (compile "%Y-%m-%d")
    with [Directive "Y"; Literal "-"; Directive "m"; Literal "-";
          Directive "d"].
  change (String sep "" +:+ ?r) with (String sep r).
  by rewrite re_match_year_short.
Qed.

(** A rendering with the day first and another separator. *)
Lemma strptime_dmy_other_separator (d : date) :
  valid_date d = true ->
  strptime (render_dmy "/" d) "%d.%m.%Y" = None
  /\ strptime (render_dmy "-" d) "%d.%m.%Y" = None
  /\ strptime (render_dmy "-" d) "%d/%m/%Y" = None.
Proof.
  intros Hv. destruct (valid_date_bounds d Hv) as (Hy & Hm & Hd).
  assert (H : forall sep c : ascii,
             isdigit sep = false -> c <> sep ->
             match re_match
                     [Directive "d"; Literal sep; Directive "m"; Literal sep;
                      Directive "Y"]
                     (render_dmy (String c "") d) [] with
             | Some (found, EmptyString) =>
                 new_date (group_int "Y" 1900 found) (group_int "m" 1 found)
                   (group_int "d" 1 found)
             | _ => None
             end = None).
  { intros sep c Hsep Hc. unfold render_dmy.
    change (String c "" +:+ ?r) with (String c r).
    by rewrite re_match_day_other_separator. }
  split; [by apply (H "."%char "/"%char)|].
  split; [by apply (H "."%char "-"%char)|by apply (H "/"%char "-"%char)].
Qed.

Lemma render_iso_no_space (d : date) :
  str_all (fun c => negb (isspace c)) (render_iso d) = true.
Proof.
  unfold render_iso. rewrite !str_all_append.
  by rewrite !(digits_no_space _ (fmt_02d_digits _)),
    (digits_no_space _ (fmt_04d_digits _)).
Qed.

Lemma render_dmy_no_space (sep : ascii) (d : date) :
  isspace sep = false ->
  str_all (fun c => negb (isspace c)) (render_dmy (String sep "") d) = true.
Proof.
  intros Hsep. unfold render_dmy. rewrite !str_all_append.
  rewrite !(digits_no_space _ (fmt_02d_digits _)),
    (digits_no_space _ (fmt_04d_digits _)).
  simpl. by rewrite Hsep.
Qed.

Lemma parse_date_unfold (text : option string) :
  parse_date fromisoformat text
  = let value := strip (or_empty text) in
    if String.eqb value "" then Raise (ValueError "date ist leer")
    else
      match strptime value "%Y-%m-%d" with
      | Some d => Ok d
      | None =>
      match strptime value "%d.%m.%Y" with
      | Some d => Ok d
      | None =>
      match strptime value "%d/%m/%Y" with
      | Some d => Ok d
      | None =>
      match strptime value "%d-%m-%Y" with
      | Some d => Ok d
      | None =>
      match fromisoformat value with
      | Some d => Ok d
      | None => Raise (ValueError ("Unbekanntes Datumsformat: " +:+ value))
      end end end end end.
Proof.
  unfold parse_date, formats, try_formats. simpl.
  destruct (String.eqb _ ""); [done|].
  repeat match goal with
         | |- context [strptime ?v ?f] => destruct (strptime v f)
         end; done.
Qed.

(** C8: the date normalizer rejects the empty text, then tries
    year-month-day, day.month.year, day/month/year and day-month-year in
    this order, the first that parses winning; after them it takes the
    date of [fromisoformat], and only when that fails too it fails as an
    unknown date format.  The four renderings of a valid calendar date
    all give that date. *)
Theorem parse_date_formats :
  (forall text,
      parse_date fromisoformat text
      = let value := strip (or_empty text) in
        if String.eqb value "" then Raise (ValueError "date ist leer")
        else
          match strptime value "%Y-%m-%d" with
          | Some d => Ok d
          | None =>
          match strptime value "%d.%m.%Y" with
          | Some d => Ok d
          | None =>
          match strptime value "%d/%m/%Y" with
          | Some d => Ok d
          | None =>
          match strptime value "%d-%m-%Y" with
          | Some d => Ok d
          | None =>
          match fromisoformat value with
          | Some d => Ok d
          | None =>
              Raise (ValueError ("Unbekanntes Datumsformat: " +:+ value))
          end end end end end)
  /\ (forall d,
        valid_date d = true ->
        parse_date fromisoformat (Some (render_iso d)) = Ok d
        /\ parse_date fromisoformat (Some (render_dmy "." d)) = Ok d
        /\ parse_date fromisoformat (Some (render_dmy "/" d)) = Ok d
        /\ parse_date fromisoformat (Some (render_dmy "-" d)) = Ok d).
Proof.
  split; [apply parse_date_unfold|].
  intros d Hv.
  destruct (strptime_dmy d Hv) as (Hdot & Hslash & Hdash).
  destruct (strptime_dmy_other_separator d Hv) as (Hsd & Hdd & Hds).
  repeat split; rewrite parse_date_unfold; cbv zeta; simpl or_empty.
  - rewrite (strip_no_space _ (render_iso_no_space d)).
    by rewrite (strptime_iso d Hv).
  - rewrite (strip_no_space _ (render_dmy_no_space "." d eq_refl)).
    by rewrite (strptime_dmy_not_iso "." d eq_refl), Hdot.
  - rewrite (strip_no_space _ (render_dmy_no_space "/" d eq_refl)).
    by rewrite (strptime_dmy_not_iso "/" d eq_refl), Hsd, Hslash.
  - rewrite (strip_no_space _ (render_dmy_no_space "-" d eq_refl)).
    by rewrite (strptime_dmy_not_iso "-" d eq_refl), Hdd, Hds, Hdash.
Qed.

End dates.

(** ** Aggregation *)

Section fold_facts.
Context {A S : Type} (f : S -> A -> S).

(** A loop whose turns commute gives the same state on every ordering of
    its input. *)
Lemma fold_left_permutation (l l' : list A) :
  (forall s a b, f (f s a) b = f (f s b) a) ->
  l ≡ₚ l' -> forall s, fold_left f l s = fold_left f l' s.
Proof.
  intros Hf. induction 1 as [|x l l' _ IH|x y l|l l' l'' _ IH1 _ IH2];
    intros s; simpl.
  - done.
  - apply IH.
  - by rewrite Hf.
  - by rewrite IH1.
Qed.

Lemma fold_left_agree (g : S -> A -> S) (l : list A) :
  Forall (fun a => forall s, f s a = g s a) l ->
  forall s, fold_left f l s = fold_left g l s.
Proof.
  induction 1 as [|a l Ha _ IH]; intros s; simpl; [done|].
  by rewrite Ha, IH.
Qed.

End fold_facts.

Section aggregation.
Import Py budget.
Variable year_text : Z -> string.
Context {num : Type} (zero : num) (add sub : num -> num -> num).
Hypothesis add_comm : forall a b, add a b = add b a.
Hypothesis add_assoc : forall a b c, add (add a b) c = add a (add b c).

Lemma add_swap (v a b : num) : add (add v a) b = add (add v b) a.
Proof. by rewrite !add_assoc, (add_comm a b). Qed.

Lemma defaultdict_add_swap (d : gmap string num) (k k' : string)
    (a b : num) :
  defaultdict_add zero add (defaultdict_add zero add d k a) k' b
  = defaultdict_add zero add (defaultdict_add zero add d k' b) k a.
Proof.
  unfold defaultdict_add. destruct (decide (k = k')) as [<-|Hne].
  - rewrite !lookup_insert_eq, !insert_insert_eq. simpl.
    by rewrite add_swap.
  - rewrite !lookup_insert_ne by done.
    by rewrite insert_insert_ne.
Qed.

Lemma defaultdict_add2_swap (d : gmap string (gmap string num))
    (m m' k k' : string) (a b : num) :
  defaultdict_add2 zero add (defaultdict_add2 zero add d m k a) m' k' b
  = defaultdict_add2 zero add (defaultdict_add2 zero add d m' k' b) m k a.
Proof.
  unfold defaultdict_add2. destruct (decide (m = m')) as [<-|Hne].
  - rewrite !lookup_insert_eq, !insert_insert_eq. simpl.
    by rewrite defaultdict_add_swap.
  - rewrite !lookup_insert_ne by done.
    by rewrite insert_insert_ne.
Qed.

Lemma aggregate_tx_swap (acc : dashboard.aggregates)
    (t1 t2 : transaction num) :
  dashboard.aggregate_tx year_text zero add
    (dashboard.aggregate_tx year_text zero add acc t1) t2
  = dashboard.aggregate_tx year_text zero add
      (dashboard.aggregate_tx year_text zero add acc t2) t1.
Proof.
  unfold dashboard.aggregate_tx.
  destruct (String.eqb (tx_kind t1) "income"),
    (String.eqb (tx_kind t2) "income"); simpl; f_equal;
    auto using defaultdict_add_swap, defaultdict_add2_swap.
Qed.

Lemma compute_aggregates_permutation (txs txs' : list (transaction num)) :
  txs ≡ₚ txs' ->
  dashboard.compute_aggregates year_text zero add txs
  = dashboard.compute_aggregates year_text zero add txs'.
Proof.
  intros Hp. unfold dashboard.compute_aggregates.
  by rewrite (fold_left_permutation _ _ _ aggregate_tx_swap Hp).
Qed.

Lemma compute_totals_permutation (txs txs' : list (transaction num)) :
  txs ≡ₚ txs' ->
  compute_totals zero add sub txs = compute_totals zero add sub txs'.
Proof.
  intros Hp. unfold compute_totals.
  rewrite (fold_left_permutation _ txs txs'); [done| |done].
  intros [income expense] t1 t2.
  destruct (String.eqb (tx_kind t1) "income") eqn:H1,
    (String.eqb (tx_kind t2) "income") eqn:H2;
    simpl; rewrite ?H1, ?H2; f_equal; auto using add_swap.
Qed.

Lemma sum_expenses_permutation (key : transaction num -> string)
    (txs txs' : list (transaction num)) :
  txs ≡ₚ txs' ->
  forall sums,
    fold_left
      (fun sums tx =>
         if String.eqb (tx_kind tx) "expense"
         then defaultdict_add zero add sums (key tx) (tx_amount tx)
         else sums) txs sums
    = fold_left
        (fun sums tx =>
           if String.eqb (tx_kind tx) "expense"
           then defaultdict_add zero add sums (key tx) (tx_amount tx)
           else sums) txs' sums.
Proof.
  intros Hp. apply fold_left_permutation; [|done].
  intros s t1 t2.
  destruct (String.eqb (tx_kind t1) "expense"),
    (String.eqb (tx_kind t2) "expense"); auto using defaultdict_add_swap.
Qed.

(** *** The keys of the dictionaries *)

Lemma dom_defaultdict_add (d : gmap string num) (k : string) (a : num) :
  dom (defaultdict_add zero add d k a) = {[k]} ∪ dom d.
Proof. unfold defaultdict_add. by rewrite dom_insert_L. Qed.

(** The keys a conditional [d[key] += amount] loop leaves in [d]. *)
Lemma dom_fold_buckets (p : transaction num -> bool)
    (key : transaction num -> string) (txs : list (transaction num)) :
  forall (sums : gmap string num) (k : string),
    k ∈ dom (fold_left
               (fun sums tx =>
                  if p tx
                  then defaultdict_add zero add sums (key tx) (tx_amount tx)
                  else sums) txs sums)
    <-> k ∈ dom sums \/ exists tx, tx ∈ txs /\ p tx = true /\ key tx = k.
Proof.
  induction txs as [|tx txs IH]; intros sums k; simpl.
  - split; [by left|]. intros [H|(tx & Htx & _)]; [done|].
    by apply elem_of_nil in Htx.
  - rewrite IH. destruct (p tx) eqn:Hp.
    + rewrite dom_defaultdict_add, elem_of_union, elem_of_singleton.
      split.
      * intros [[->|H]|(tx' & Htx' & H)]; [|by left|].
        -- right. exists tx. split; [by left|done].
        -- right. exists tx'. split; [by right|done].
      * intros [H|(tx' & [->|Htx']%elem_of_cons & Hp' & Hk)].
        -- left. by right.
        -- left. by left.
        -- right. by exists tx'.
    + split.
      * intros [H|(tx' & Htx' & H)]; [by left|].
        right. exists tx'. split; [by right|done].
      * intros [H|(tx' & [->|Htx']%elem_of_cons & Hp' & Hk)].
        -- by left.
        -- congruence.
        -- right. by exists tx'.
Qed.

Local Abbreviation is_income :=
  (fun tx : transaction num => String.eqb (tx_kind tx) "income").
Local Abbreviation month_of :=
  (fun tx : transaction num => dashboard.month_key year_text (tx_date_obj tx)).

Lemma add_buckets_as_fold (key : transaction num -> string)
    (txs : list (transaction num)) (sums : gmap string num) :
  Spec.add_buckets zero add key sums txs
  = fold_left
      (fun sums tx =>
         if negb (is_income tx)
         then defaultdict_add zero add sums (key tx) (tx_amount tx)
         else sums) txs sums.
Proof.
  unfold Spec.add_buckets. apply fold_left_agree, Forall_forall.
  intros tx _ s. by destruct (String.eqb (tx_kind tx) "income").
Qed.

Lemma monthly_income_fold (txs : list (transaction num)) :
  forall acc,
    dashboard.monthly_income
      (fold_left (dashboard.aggregate_tx year_text zero add) txs acc)
    = fold_left
        (fun sums tx =>
           if is_income tx
           then defaultdict_add zero add sums (month_of tx) (tx_amount tx)
           else sums) txs (dashboard.monthly_income acc).
Proof.
  induction txs as [|tx txs IH]; intros acc; simpl; [done|].
  rewrite IH. unfold dashboard.aggregate_tx.
  by destruct (String.eqb (tx_kind tx) "income").
Qed.

Lemma aggregate_fold_projections (txs : list (transaction num)) :
  forall acc,
    let acc' := fold_left (dashboard.aggregate_tx year_text zero add) txs acc in
    dashboard.monthly_expense acc'
    = Spec.add_buckets zero add
        (fun tx => dashboard.month_key year_text (tx_date_obj tx))
        (dashboard.monthly_expense acc) txs
    /\ dashboard.totals_by_category acc'
       = Spec.add_buckets zero add tx_category
           (dashboard.totals_by_category acc) txs
    /\ dashboard.totals_by_group acc'
       = Spec.add_buckets zero add tx_group (dashboard.totals_by_group acc) txs.
Proof.
  unfold Spec.add_buckets.
  induction txs as [|tx txs IH]; intros acc; simpl; [done|].
  destruct (IH (dashboard.aggregate_tx year_text zero add acc tx))
    as (-> & -> & ->).
  unfold dashboard.aggregate_tx.
  by destruct (String.eqb (tx_kind tx) "income").
Qed.

(** *** The values in the order of insertion *)

Lemma sum_permutation (vs vs' : list num) :
  vs ≡ₚ vs' -> sum zero add vs = sum zero add vs'.
Proof.
  intros Hp. unfold sum. by apply fold_left_permutation; [apply add_swap|].
Qed.

Lemma insertion_order_fold (keys : list string) :
  forall seen,
    NoDup seen ->
    NoDup (fold_left
             (fun seen k => if str_in k seen then seen else (seen ++ [k])%list)
             keys seen)
    /\ forall k,
        k ∈ fold_left
              (fun seen k =>
                 if str_in k seen then seen else (seen ++ [k])%list)
              keys seen
        <-> k ∈ seen \/ k ∈ keys.
Proof.
  induction keys as [|x keys IH]; intros seen Hs; simpl.
  - split; [done|]. intros k. rewrite elem_of_nil. tauto.
  - destruct (str_in x seen) eqn:Hx.
    + apply str_in_spec in Hx.
      destruct (IH seen Hs) as [Hn Hk]. split; [done|].
      intros k. rewrite Hk, elem_of_cons.
      split; [tauto|]. intros [?|[->|?]]; auto.
    + assert (Hnx : x ∉ seen).
      { intros H. apply str_in_spec in H. congruence. }
      destruct (IH (seen ++ [x])%list) as [Hn Hk].
      { apply NoDup_app. split; [done|]. split; [|apply NoDup_singleton].
        intros y Hy ->%list_elem_of_singleton. done. }
      split; [done|].
      intros k. rewrite Hk, elem_of_app, list_elem_of_singleton, elem_of_cons.
      tauto.
Qed.

(** The order of insertion holds every key once. *)
Lemma insertion_order_spec (keys : list string) :
  NoDup (insertion_order keys)
  /\ forall k, k ∈ insertion_order keys <-> k ∈ keys.
Proof.
  destruct (insertion_order_fold keys [] (NoDup_nil_2 (A:=string))) as [Hn Hk].
  split; [done|]. intros k. unfold insertion_order. rewrite Hk, elem_of_nil.
  tauto.
Qed.

Lemma values_in_keys (l : list (string * num)) (d : gmap string num) :
  Forall (fun kv => d !! kv.1 = Some kv.2) l -> values_in l.*1 d = l.*2.
Proof.
  unfold values_in.
  induction 1 as [|[k v] l Hkv _ IH]; csimpl in *; [done|].
  by rewrite Hkv, IH.
Qed.

(** The values of a dictionary in the order of its keys' insertion are its
    values, in some order. *)
Lemma values_in_permutation (keys : list string) (d : gmap string num) :
  NoDup keys -> (forall k, k ∈ keys <-> k ∈ dom d) ->
  values_in keys d ≡ₚ values d.
Proof.
  intros Hn Hk.
  assert (Hp : keys ≡ₚ (map_to_list d).*1).
  { apply NoDup_Permutation; [done|apply NoDup_fst_map_to_list|].
    intros k. rewrite Hk, elem_of_dom, list_elem_of_fmap. split.
    - intros [v Hv]. exists (k, v). split; [done|].
      by apply elem_of_map_to_list.
    - intros ([k' v] & -> & H). apply elem_of_map_to_list in H. by exists v. }
  unfold values_in at 1. rewrite Hp.
  fold (values_in (map_to_list d).*1 d).
  rewrite (values_in_keys (map_to_list d) d); [done|].
  apply Forall_forall. intros [k v] H. by apply elem_of_map_to_list in H.
Qed.

Lemma inserted_months_spec (income : bool) (txs : list (transaction num)) :
  NoDup (dashboard.inserted_months year_text income txs)
  /\ forall m,
      m ∈ dashboard.inserted_months year_text income txs
      <-> exists tx, tx ∈ txs /\ is_income tx = income /\ month_of tx = m.
Proof.
  unfold dashboard.inserted_months.
  destruct (insertion_order_spec
              (map month_of
                 (List.filter (fun tx => Bool.eqb (is_income tx) income) txs)))
    as [Hn Hk].
  split; [done|]. intros m. rewrite Hk, list_elem_of_In, in_map_iff. split.
  - intros (tx & <- & Htx). apply filter_In in Htx.
    destruct Htx as [Htx Hi]. exists tx.
    split; [by apply list_elem_of_In|]. split; [|done].
    by apply Bool.eqb_prop in Hi.
  - intros (tx & Htx & Hi & <-). exists tx. split; [done|].
    apply filter_In. split; [by apply list_elem_of_In|].
    rewrite Hi. apply Bool.eqb_reflx.
Qed.

(** Where the addition is associative and commutative, the totals of the
    summary are the sums of the monthly values in any order. *)
Lemma summary_totals_values (txs : list (transaction num)) :
  dashboard.summary_totals year_text zero add sub txs
  = let agg := dashboard.compute_aggregates year_text zero add txs in
    (sum zero add (values (dashboard.monthly_income agg)),
     sum zero add (values (dashboard.monthly_expense agg)),
     sub (sum zero add (values (dashboard.monthly_income agg)))
       (sum zero add (values (dashboard.monthly_expense agg)))).
Proof.
  unfold dashboard.summary_totals. cbv zeta.
  destruct (inserted_months_spec true txs) as [Hni Hki].
  destruct (inserted_months_spec false txs) as [Hne Hke].
  assert (Hi : forall m,
             m ∈ dashboard.inserted_months year_text true txs
             <-> m ∈ dom (dashboard.monthly_income
                            (dashboard.compute_aggregates year_text zero add
                               txs))).
  { intros m. rewrite Hki.
    unfold dashboard.compute_aggregates. simpl.
    rewrite monthly_income_fold. simpl.
    rewrite dom_fold_buckets, dom_empty_L. split; [by right|].
    intros [H|H]; [by apply not_elem_of_empty in H|done]. }
  assert (He : forall m,
             m ∈ dashboard.inserted_months year_text false txs
             <-> m ∈ dom (dashboard.monthly_expense
                            (dashboard.compute_aggregates year_text zero add
                               txs))).
  { intros m. rewrite Hke.
    unfold dashboard.compute_aggregates. simpl.
    destruct (aggregate_fold_projections txs
                (dashboard.mk_aggregates [] ∅ ∅ ∅ ∅ ∅ ∅)) as (-> & _ & _).
    rewrite add_buckets_as_fold. simpl.
    rewrite dom_fold_buckets, dom_empty_L. split.
    - intros (tx & Htx & Hi' & Hm). right. exists tx.
      by rewrite Hi'.
    - intros [H|(tx & Htx & Hi' & Hm)]; [by apply not_elem_of_empty in H|].
      exists tx. by apply negb_true_iff in Hi'. }
  by rewrite (sum_permutation _ _ (values_in_permutation _ _ Hni Hi)),
    (sum_permutation _ _ (values_in_permutation _ _ Hne He)).
Qed.


(** *** The expense total and the breakdowns *)

Hypothesis add_zero_l : forall a, add zero a = a.

Lemma fold_left_add_acc (l : list num) :
  forall a b, fold_left add l (add a b) = add a (fold_left add l b).
Proof.
  induction l as [|x l IH]; intros a b; simpl; [done|].
  by rewrite add_assoc, IH.
Qed.

Lemma sum_cons (x : num) (l : list num) :
  sum zero add (x :: l) = add x (sum zero add l).
Proof.
  unfold sum. simpl. by rewrite (add_comm zero x), fold_left_add_acc.
Qed.

(** [d[k] += a] adds [a] to the sum of the dictionary's values. *)
Lemma sum_values_defaultdict_add (d : gmap string num) (k : string)
    (a : num) :
  sum zero add (values (defaultdict_add zero add d k a))
  = add (sum zero add (values d)) a.
Proof.
  unfold defaultdict_add, values.
  destruct (d !! k) as [v|] eqn:Hk; simpl.
  - rewrite <- insert_delete_eq.
    rewrite (sum_permutation _ (add v a :: (map_to_list (delete k d)).*2)).
    2: { rewrite map_to_list_insert by apply lookup_delete_eq. done. }
    rewrite (sum_permutation ((map_to_list d).*2)
               (v :: (map_to_list (delete k d)).*2)).
    2: { by rewrite <- (map_to_list_delete d k v Hk). }
    rewrite !sum_cons.
    by rewrite !add_assoc, (add_comm a).
  - rewrite (sum_permutation _ (add zero a :: (map_to_list d).*2)).
    2: { by rewrite map_to_list_insert. }
    by rewrite sum_cons, add_zero_l, add_comm.
Qed.

Lemma sum_values_empty : sum zero add (values (∅ : gmap string num)) = zero.
Proof. unfold values. by rewrite map_to_list_empty. Qed.

Lemma sum_values_add_buckets (key : transaction num -> string)
    (txs : list (transaction num)) :
  forall sums,
    sum zero add (values (Spec.add_buckets zero add key sums txs))
    = Spec.add_expenses add (sum zero add (values sums)) txs.
Proof.
  unfold Spec.add_buckets, Spec.add_expenses.
  induction txs as [|tx txs IH]; intros sums; simpl; [done|].
  rewrite IH. destruct (String.eqb (tx_kind tx) "income"); [done|].
  by rewrite sum_values_defaultdict_add.
Qed.

Lemma totals_fold_expense (txs : list (transaction num)) :
  forall income expense,
    (fold_left
       (fun '(income, expense) tx =>
          if String.eqb (tx_kind tx) "income"
          then (add income (tx_amount tx), expense)
          else (income, add expense (tx_amount tx)))
       txs (income, expense)).2
    = Spec.add_expenses add expense txs.
Proof.
  unfold Spec.add_expenses.
  induction txs as [|tx txs IH]; intros income expense; simpl; [done|].
  destruct (String.eqb (tx_kind tx) "income"); apply IH.
Qed.

Lemma compute_totals_expense (txs : list (transaction num)) :
  (compute_totals zero add sub txs).1.2 = Spec.add_expenses add zero txs.
Proof.
  unfold compute_totals.
  rewrite <- (totals_fold_expense txs zero zero).
  by destruct (fold_left _ txs (zero, zero)).
Qed.

Lemma valid_kind_expense (tx : transaction num) :
  Spec.valid_kind tx ->
  String.eqb (tx_kind tx) "expense" = negb (String.eqb (tx_kind tx) "income").
Proof. by intros [-> | ->]. Qed.

Lemma sum_expenses_add_buckets (key : transaction num -> string)
    (txs : list (transaction num)) :
  Forall Spec.valid_kind txs ->
  fold_left
    (fun sums tx =>
       if String.eqb (tx_kind tx) "expense"
       then defaultdict_add zero add sums (key tx) (tx_amount tx)
       else sums) txs ∅
  = Spec.add_buckets zero add key ∅ txs.
Proof.
  intros Hv. apply fold_left_agree.
  eapply Forall_impl; [exact Hv|]. intros tx Htx sums. simpl.
  rewrite (valid_kind_expense tx Htx).
  by destruct (String.eqb (tx_kind tx) "income").
Qed.


End aggregation.

(** ** The projection calculator *)

Section projection.
Import Py.
Variable pow_rest : float -> float -> option float.

(** The floats that compare equal to zero. *)
Lemma eqb_zero (x : float) :
  (x =? 0)%float = true -> x = 0%float \/ x = (-0)%float.
Proof.
  rewrite FloatAxioms.eqb_spec. intros H.
  rewrite <- (SF2Prim_Prim2SF x).
  destruct (Prim2SF x) as [[]|[]| |[] m e]; vm_compute in H; try done.
  - by right.
  - by left.
Qed.

Lemma one_plus_zero (x : float) :
  (x =? 0)%float = true -> (1 + x)%float = 1%float.
Proof. by intros [-> | ->]%eqb_zero. Qed.


(** The projection over no years is 0, for every contribution and every
    rate. *)
Lemma future_value_at_zero_years (pmt rate : float) :
  dashboard.future_value_monthly_contrib pow_rest pmt 0 rate = Some 0%float.
Proof. reflexivity. Qed.

End projection.

(** ** Amounts in binary floating point *)

Section float_counterexamples.
Import Py Spec budget Examples.

Local Abbreviation load := (load_transactions no_fromisoformat (Some header)).
Local Abbreviation upload :=
  (fun rows =>
     dashboard.parse_transactions_from_upload no_fromisoformat (Some header)
       rows None).

(** C1 fails as stated: the amount texts "-5", "inf" and "nan" are
    accepted, by both loaders, with a negative, an infinite and a
    not-a-number amount. *)
Lemma accepted_amounts_need_not_be_finite_nonneg :
  (parse_amount (Some "-5") = Ok (-5)%float
   /\ finite_nonneg (-5) = false)
  /\ (parse_amount (Some "inf") = Ok infinity
      /\ finite_nonneg infinity = false)
  /\ (parse_amount (Some "nan") = Ok nan /\ finite_nonneg nan = false)
  /\ load rows_with_odd_amounts = Ok txs_with_odd_amounts
  /\ upload rows_with_odd_amounts
     = Ok (dashboard.mk_ParsedData txs_with_odd_amounts []).
Proof. repeat split; by vm_compute. Qed.

(** C9 fails as stated: "nan", "inf" and "1_000" are no decimal literals,
    and are accepted. *)
Lemma amounts_beyond_decimal_literals_are_accepted :
  (decimal_literal (cleaned (strip "nan")) = false
   /\ parse_amount (Some "nan") = Ok nan)
  /\ (decimal_literal (cleaned (strip "inf")) = false
      /\ parse_amount (Some "inf") = Ok infinity)
  /\ (decimal_literal (cleaned (strip "1_000")) = false
      /\ parse_amount (Some "1_000") = Ok 1000%float).
Proof. repeat split; by vm_compute. Qed.

Local Abbreviation totals := (compute_totals float_zero float_add float_sub).
Local Abbreviation by_category :=
  (sum_expenses_by_category float_zero float_add).
Local Abbreviation by_group := (sum_expenses_by_group float_zero float_add).
Local Abbreviation aggregates :=
  (dashboard.compute_aggregates str_of_int float_zero float_add).
Local Abbreviation summary :=
  (dashboard.summary_totals str_of_int float_zero float_add float_sub).
Local Abbreviation fsum := (sum float_zero float_add).

(** Two values differ when a test tells them apart. *)
Local Ltac differ test :=
  let H := fresh "H" in
  intros H; apply (f_equal test) in H; vm_compute in H; discriminate H.



End float_counterexamples.

(** ** More on the loaders *)

Section more_on_loaders.
Import Py Spec budget.
Variable fromisoformat : string -> option datetime.date.

Lemma check_required_Ok (cols fieldnames : list string) :
  check_required cols fieldnames = Ok tt ->
  Forall (fun col => col ∈ fieldnames) cols.
Proof.
  induction cols as [|col cols IH]; simpl; [by constructor|].
  destruct (str_in col fieldnames) eqn:Hcol; simpl; [|done].
  intros H. constructor; [by apply str_in_spec|by apply IH].
Qed.

Lemma check_required_first_missing (cols fieldnames : list string) :
  ~ Forall (fun col => col ∈ fieldnames) cols ->
  exists pre col post,
    cols = (pre ++ col :: post)%list
    /\ Forall (fun c => c ∈ fieldnames) pre
    /\ (col ∉ fieldnames)
    /\ check_required cols fieldnames
       = Raise (ValueError ("Spalte fehlt: " +:+ col)).
Proof.
  induction cols as [|col cols IH]; intros Hn.
  - destruct Hn. constructor.
  - simpl. destruct (str_in col fieldnames) eqn:Hcol; simpl.
    + apply str_in_spec in Hcol.
      destruct IH as (pre & c & post & -> & Hpre & Hc & Hchk).
      { intros Hall. apply Hn. by constructor. }
      exists (col :: pre), c, post.
      split; [done|]. split; [by constructor|]. by split.
    + exists [], col, cols.
      split; [done|]. split; [constructor|]. split; [|done].
      intros Hin%str_in_spec. congruence.
Qed.

Lemma missing_empty_inv (fieldnames : list string) :
  dashboard.required ∖ list_to_set fieldnames = (∅ : gset string) ->
  header_complete fieldnames.
Proof.
  intros He. unfold header_complete, required.
  assert (H : forall col, col ∈ dashboard.required -> col ∈ fieldnames).
  { intros col Hcol. destruct (decide (col ∈ fieldnames)) as [|Hn]; [done|].
    assert (col ∈ dashboard.required ∖ list_to_set fieldnames) as Hc.
    { apply elem_of_difference. split; [done|].
      by rewrite elem_of_list_to_set. }
    rewrite He in Hc. by apply not_elem_of_empty in Hc. }
  unfold dashboard.required in H.
  repeat constructor; apply H; set_solver.
Qed.

(** In [load_transactions] the header is checked before any row is read:
    with a required column missing, whatever the rows, the error names the
    first missing column in the order date, kind, amount, category. *)
Theorem load_transactions_missing_column
    (fieldnames : list string) (rows : list row) :
  ~ header_complete fieldnames ->
  exists pre col post,
    required = (pre ++ col :: post)%list
    /\ Forall (fun c => c ∈ fieldnames) pre
    /\ (col ∉ fieldnames)
    /\ load_transactions fromisoformat (Some fieldnames) rows
       = Raise (ValueError ("Spalte fehlt: " +:+ col)).
Proof.
  intros Hn.
  destruct (check_required_first_missing required fieldnames Hn)
    as (pre & col & post & Hreq & Hpre & Hcol & Hchk).
  exists pre, col, post.
  split; [done|]. split; [done|]. split; [done|].
  unfold load_transactions. by rewrite Hchk.
Qed.

(** [load_transactions] succeeds exactly when the header has every
    required column and every data row is read; it then returns one
    transaction per row, in the order of the file. *)
Theorem load_transactions_succeeds_iff
    (fieldnames : list string) (rows : list row)
    (txs : list (transaction float)) :
  load_transactions fromisoformat (Some fieldnames) rows = Ok txs
  <-> header_complete fieldnames
      /\ Forall2 (fun r tx => budget.read_row fromisoformat r = Ok tx) rows txs.
Proof.
  split.
  - intros H. split; [|by apply (load_transactions_Ok _ _ _ _ H)].
    unfold load_transactions in H.
    destruct (check_required required fieldnames) as [[]|e] eqn:Hchk;
      [|done].
    by apply check_required_Ok.
  - intros [Hh Hrows]. unfold load_transactions.
    rewrite (check_required_complete _ _ Hh). simpl.
    by rewrite (load_rows_all_read fromisoformat rows 1 [] txs Hrows).
Qed.

(** The two loaders accept the same files and return the same
    transactions; the upload parser adds its warning exactly when there is
    no transaction. *)
Theorem loaders_agree
    (fieldnames : option (list string)) (rows : list row)
    (filename : option string) :
  (forall txs,
      load_transactions fromisoformat fieldnames rows = Ok txs ->
      dashboard.parse_transactions_from_upload fromisoformat fieldnames rows
        filename
      = Ok (dashboard.mk_ParsedData txs
              (match txs with
               | [] => ["CSV enth" +:+ String (chr 228)
                          "lt keine Datenzeilen (nur Header?)"]
               | _ :: _ => []
               end)))
  /\ (forall parsed,
        dashboard.parse_transactions_from_upload fromisoformat fieldnames
          rows filename = Ok parsed ->
        load_transactions fromisoformat fieldnames rows
        = Ok (dashboard.transactions parsed)).
Proof.
  destruct fieldnames as [fieldnames|]; [|by split].
  unfold load_transactions, dashboard.parse_transactions_from_upload.
  split.
  - intros txs H.
    destruct (check_required required fieldnames) as [[]|e] eqn:Hchk;
      [|done].
    simpl in H. apply check_required_Ok, missing_empty in Hchk.
    rewrite Hchk, bool_decide_eq_true_2 by done. simpl.
    rewrite dashboard_load_rows, H. simpl. by destruct txs.
  - intros parsed H.
    destruct (bool_decide _) eqn:Hm; simpl in H; [|done].
    apply bool_decide_eq_true_1, missing_empty_inv in Hm.
    rewrite (check_required_complete _ _ Hm). simpl.
    rewrite dashboard_load_rows in H.
    destruct (budget.load_rows fromisoformat 1 [] rows) as [txs|e];
      simpl in H; [|done].
    by inversion H.
Qed.

End more_on_loaders.


(** ** What the parser guarantees of a transaction *)

Section stripping.
Import Py.
Variable sp : ascii -> bool.

Lemma lstrip_idempotent (s : string) :
  lstrip_with sp (lstrip_with sp s) = lstrip_with sp s.
Proof.
  induction s as [|c s IH]; simpl; [done|].
  destruct (sp c) eqn:Hc; [done|]. simpl. by rewrite Hc.
Qed.

Lemma rstrip_idempotent (s : string) :
  rstrip_with sp (rstrip_with sp s) = rstrip_with sp s.
Proof.
  induction s as [|c s IH]; simpl; [done|].
  destruct (is_empty (rstrip_with sp s) && sp c) eqn:Hc; [done|].
  simpl. by rewrite IH, Hc.
Qed.

(** Dropping leading whitespace leaves the end of a text as it is. *)
Lemma rstrip_lstrip (s : string) :
  rstrip_with sp s = s ->
  rstrip_with sp (lstrip_with sp s) = lstrip_with sp s.
Proof.
  induction s as [|c s IH]; simpl; [done|].
  destruct (is_empty (rstrip_with sp s) && sp c) eqn:He; [done|].
  intros H. injection H as H.
  destruct (sp c) eqn:Hc; [by apply IH|].
  simpl. by rewrite Hc, andb_false_r, H.
Qed.

End stripping.

Section transactions.
Import Py Spec budget datetime.
Variable fromisoformat : string -> option date.

Lemma strip_idempotent (s : string) : strip (strip s) = strip s.
Proof.
  unfold strip.
  rewrite (rstrip_lstrip isspace (rstrip_with isspace s))
    by apply rstrip_idempotent.
  apply lstrip_idempotent.
Qed.

Lemma normalize_kind_values (text : option string) (kind : string) :
  normalize_kind text = Ok kind -> kind = "income" \/ kind = "expense".
Proof.
  unfold normalize_kind.
  destruct (str_in _ ["income"; "ein"; "einnahme"; "einnahmen"]).
  { intros [= <-]. by left. }
  destruct (str_in _ _); [|done].
  intros [= <-]. by right.
Qed.

Lemma normalize_group_values (text : option string) :
  normalize_group text ∈ group_names.
Proof.
  unfold normalize_group, group_names.
  repeat match goal with
         | |- context [if ?b then _ else _] => destruct b
         end; set_solver.
Qed.

Lemma CATEGORY_TO_GROUP_values (category group : string) :
  CATEGORY_TO_GROUP !! category = Some group -> group ∈ group_names.
Proof.
  unfold CATEGORY_TO_GROUP, group_names. intros H.
  apply elem_of_list_to_map_2 in H.
  repeat (apply elem_of_cons in H as [[= _ <-]|H]; [set_solver|]).
  by apply elem_of_nil in H.
Qed.

Lemma group_for_category_values (category : string)
    (group_text : option string) :
  group_for_category category group_text ∈ group_names.
Proof.
  unfold group_for_category.
  destruct (String.eqb _ ""); [|apply normalize_group_values].
  destruct (CATEGORY_TO_GROUP !! category) as [g|] eqn:Hg; simpl.
  - by apply (CATEGORY_TO_GROUP_values category).
  - unfold group_names. set_solver.
Qed.

Lemma GROUP_LABEL_covers (group : string) :
  group ∈ group_names -> is_Some (GROUP_LABEL !! group).
Proof.
  unfold group_names. intros H.
  repeat (apply elem_of_cons in H as [->|H]; [vm_compute; by eexists|]).
  by apply elem_of_nil in H.
Qed.

Lemma strptime_valid (value fmt : string) (d : date) :
  strptime value fmt = Some d -> valid_date d = true.
Proof.
  unfold strptime, new_date.
  destruct (re_match _ _ _) as [[found [|]]|]; [|done..].
  destruct (valid_date _) eqn:Hv; [|done].
  by intros [= <-].
Qed.

Lemma try_formats_valid (value : string) (fmts : list string) (d : date) :
  try_formats value fmts = Some d -> valid_date d = true.
Proof.
  induction fmts as [|fmt fmts IH]; simpl; [done|].
  destruct (strptime value fmt) as [d'|] eqn:Hd; [|done].
  intros [= <-]. by apply (strptime_valid value fmt).
Qed.

Lemma parse_date_valid (text : option string) (d : date) :
  returns_valid_dates fromisoformat ->
  parse_date fromisoformat text = Ok d -> valid_date d = true.
Proof.
  intros Hf. unfold parse_date.
  destruct (String.eqb _ ""); [done|].
  destruct (try_formats _ formats) as [d'|] eqn:Hd.
  { intros [= <-]. by apply (try_formats_valid _ _ _ Hd). }
  destruct (fromisoformat _) as [d'|] eqn:Hd'; [|done].
  intros [= <-]. by apply (Hf _ _ Hd').
Qed.

Lemma read_row_well_formed (r : row) (tx : transaction float) :
  returns_valid_dates fromisoformat ->
  budget.read_row fromisoformat r = Ok tx -> well_formed tx.
Proof.
  intros Hf. unfold budget.read_row.
  destruct (normalize_kind (r !! "kind")) as [kind|] eqn:Hk; simpl; [|done].
  destruct (parse_amount (r !! "amount")) as [amount|]; simpl; [|done].
  destruct (String.eqb _ "") eqn:Hc; [done|].
  destruct (parse_date fromisoformat (r !! "date")) as [d|] eqn:Hd;
    simpl; [|done].
  intros [= <-]. unfold well_formed, valid_kind. simpl.
  split; [by apply (normalize_kind_values (r !! "kind"))|].
  split; [by apply String.eqb_neq|].
  split; [apply strip_idempotent|].
  split; [apply group_for_category_values|].
  split; [apply GROUP_LABEL_covers, group_for_category_values|].
  split; [apply strip_idempotent|].
  split; [apply strip_idempotent|].
  by apply (parse_date_valid (r !! "date")).
Qed.

(** Every transaction either loader returns has the kind income or expense,
    a category that is not empty, one of the four groups, for which
    [GROUP_LABEL] has a label, texts (date, category, note) without
    surrounding whitespace, and a date of the calendar. *)
Theorem loaded_transactions_are_well_formed
    (fieldnames : option (list string)) (rows : list row)
    (filename : option string) :
  returns_valid_dates fromisoformat ->
  (forall txs,
      load_transactions fromisoformat fieldnames rows = Ok txs ->
      Forall well_formed txs)
  /\ (forall parsed,
        dashboard.parse_transactions_from_upload fromisoformat fieldnames
          rows filename = Ok parsed ->
        Forall well_formed (dashboard.transactions parsed)).
Proof.
  intros Hf.
  assert (H : forall txs,
             Forall2 (fun r tx => budget.read_row fromisoformat r = Ok tx)
               rows txs ->
             Forall well_formed txs).
  { intros txs Hrows. apply Forall_forall. intros tx Htx.
    apply list_elem_of_lookup in Htx as [i Hi].
    destruct (Forall2_lookup_r _ _ _ _ _ Hrows Hi) as (r & _ & Hr).
    by apply (read_row_well_formed r). }
  split.
  - intros txs Hl. by apply H, (load_transactions_Ok _ _ _ _ Hl).
  - intros parsed Hl.
    by apply H, (parse_transactions_from_upload_Ok _ _ _ _ _ Hl).
Qed.

End transactions.


(** ** Spellings the normalizers do not tell apart *)

Section spellings.
Import Py Spec budget datetime.
Variable fromisoformat : string -> option date.

Lemma append_nil_l (s : string) : "" +:+ s = s.
Proof. reflexivity. Qed.

Lemma is_empty_eqb (s : string) : String.eqb s "" = is_empty s.
Proof. by destruct s. Qed.

(** *** One character for another *)

Lemma is_empty_replace (a b : ascii) (s : string) :
  is_empty (replace a (String b "") s) = is_empty s.
Proof.
  destruct s as [|c s]; simpl; [done|].
  destruct (Ascii.eqb c a); [|done]. by rewrite append_cons.
Qed.

Lemma lstrip_replace (sp : ascii -> bool) (a b : ascii) (s : string) :
  sp a = false -> sp b = false ->
  lstrip_with sp (replace a (String b "") s)
  = replace a (String b "") (lstrip_with sp s).
Proof.
  intros Ha Hb. induction s as [|c s IH]; simpl; [done|].
  destruct (Ascii.eqb c a) eqn:Hc.
  - apply Ascii.eqb_eq in Hc as ->.
    rewrite append_cons, append_nil_l, Ha. simpl.
    by rewrite Hb, Ascii.eqb_refl, append_cons, append_nil_l.
  - simpl. destruct (sp c); [done|]. simpl. by rewrite Hc.
Qed.

Lemma rstrip_replace (sp : ascii -> bool) (a b : ascii) (s : string) :
  sp a = false -> sp b = false ->
  rstrip_with sp (replace a (String b "") s)
  = replace a (String b "") (rstrip_with sp s).
Proof.
  intros Ha Hb. induction s as [|c s IH]; simpl; [done|].
  destruct (Ascii.eqb c a) eqn:Hc.
  - apply Ascii.eqb_eq in Hc as ->.
    rewrite append_cons, append_nil_l, Ha, andb_false_r. simpl.
    by rewrite Hb, andb_false_r, IH, Ascii.eqb_refl, append_cons,
      append_nil_l.
  - simpl. rewrite IH, is_empty_replace.
    destruct (is_empty (rstrip_with sp s) && sp c); [done|].
    simpl. by rewrite Hc.
Qed.

Lemma replace_twice (a b : ascii) (s : string) :
  Ascii.eqb b a = false ->
  replace a (String b "") (replace a (String b "") s)
  = replace a (String b "") s.
Proof.
  intros Hab. induction s as [|c s IH]; simpl; [done|].
  destruct (Ascii.eqb c a) eqn:Hc.
  - rewrite append_cons, append_nil_l. simpl.
    by rewrite Hab, IH.
  - simpl. by rewrite Hc, IH.
Qed.

Lemma remove_replace (x a b : ascii) (s : string) :
  Ascii.eqb a x = false -> Ascii.eqb b x = false ->
  replace x "" (replace a (String b "") s)
  = replace a (String b "") (replace x "" s).
Proof.
  intros Hax Hbx. induction s as [|c s IH]; simpl; [done|].
  destruct (Ascii.eqb c a) eqn:Hca.
  - apply Ascii.eqb_eq in Hca as ->.
    rewrite append_cons, append_nil_l, Hax. simpl.
    by rewrite Hbx, Ascii.eqb_refl, IH, append_cons, append_nil_l.
  - destruct (Ascii.eqb c x) eqn:Hcx; simpl.
    + by rewrite Hcx, !append_nil_l.
    + by rewrite Hcx, Hca, IH.
Qed.

Lemma cleaned_comma (s : string) :
  cleaned (replace "," "." s) = cleaned s.
Proof.
  unfold cleaned.
  rewrite (remove_replace "'" "," ".") by done.
  rewrite (remove_replace " " "," ".") by done.
  by apply replace_twice.
Qed.

Lemma strip_comma (s : string) :
  strip (replace "," "." s) = replace "," "." (strip s).
Proof.
  unfold strip. by rewrite rstrip_replace, lstrip_replace.
Qed.

(** The decimal comma and the decimal point are one spelling: an amount
    text with its commas turned into points gives the same amount or the
    same error. *)
Theorem parse_amount_comma_is_point (s : string) :
  parse_amount (Some (replace "," "." s)) = parse_amount (Some s).
Proof.
  destruct (decide (strip s = "")) as [He|Hne].
  - rewrite !parse_amount_empty; simpl or_empty; [done..|].
    by rewrite strip_comma, He.
  - rewrite !parse_amount_nonempty; simpl or_empty.
    + by rewrite strip_comma, cleaned_comma.
    + done.
    + rewrite strip_comma. intros He. apply Hne.
      pose proof (is_empty_replace "," "." (strip s)) as H.
      rewrite He in H. by destruct (strip s).
Qed.

(** *** Letter case and surrounding whitespace *)

Lemma isspace_lower_char (c : ascii) : isspace (lower_char c) = isspace c.
Proof. destruct c as [[] [] [] [] [] [] [] []]; by vm_compute. Qed.

Lemma lower_char_idempotent (c : ascii) :
  lower_char (lower_char c) = lower_char c.
Proof. destruct c as [[] [] [] [] [] [] [] []]; by vm_compute. Qed.

Lemma lower_idempotent (s : string) : lower (lower s) = lower s.
Proof.
  induction s as [|c s IH]; simpl; [done|].
  by rewrite lower_char_idempotent, IH.
Qed.

Lemma lstrip_lower (s : string) :
  lstrip_with isspace (lower s) = lower (lstrip_with isspace s).
Proof.
  induction s as [|c s IH]; simpl; [done|].
  rewrite isspace_lower_char. by destruct (isspace c).
Qed.

Lemma rstrip_lower (s : string) :
  rstrip_with isspace (lower s) = lower (rstrip_with isspace s).
Proof.
  induction s as [|c s IH]; simpl; [done|].
  rewrite isspace_lower_char, IH.
  assert (is_empty (lower (rstrip_with isspace s))
          = is_empty (rstrip_with isspace s)) as ->
    by by destruct (rstrip_with isspace s).
  by destruct (is_empty _ && isspace c).
Qed.

Lemma strip_lower (s : string) : strip (lower s) = lower (strip s).
Proof. unfold strip. by rewrite rstrip_lower, lstrip_lower. Qed.

(** Texts that differ in letter case only are stripped to such texts. *)
Lemma lower_strip_eq (s1 s2 : string) :
  lower s1 = lower s2 -> lower (strip s1) = lower (strip s2).
Proof. intros H. by rewrite <- !strip_lower, H. Qed.

(** The kind and the group are read without regard to letter case, and
    every normalizer without regard to surrounding whitespace: two texts
    that differ in case only give the same kind and the same group, and a
    text and its stripped form give the same kind, group, amount and
    date. *)
Theorem normalizers_ignore_case_and_whitespace :
  (forall s1 s2,
      lower s1 = lower s2 ->
      normalize_kind (Some s1) = normalize_kind (Some s2)
      /\ normalize_group (Some s1) = normalize_group (Some s2)
      /\ forall category,
          strip s1 <> "" ->
          group_for_category category (Some s1)
          = group_for_category category (Some s2))
  /\ (forall s,
        normalize_kind (Some (strip s)) = normalize_kind (Some s)
        /\ normalize_group (Some (strip s)) = normalize_group (Some s)
        /\ parse_amount (Some (strip s)) = parse_amount (Some s)
        /\ parse_date fromisoformat (Some (strip s))
           = parse_date fromisoformat (Some s)
        /\ forall category,
            group_for_category category (Some (strip s))
            = group_for_category category (Some s)).
Proof.
  split.
  - intros s1 s2 H. pose proof (lower_strip_eq s1 s2 H) as Hs.
    unfold normalize_kind, normalize_group. simpl or_empty.
    rewrite Hs. split; [done|]. split; [done|].
    intros category Hne. unfold group_for_category. simpl or_empty.
    assert (Hne2 : strip s2 <> "").
    { intros He. rewrite He in Hs. by destruct (strip s1). }
    destruct (String.eqb (strip s1) "") eqn:E1;
      [by apply String.eqb_eq in E1|].
    destruct (String.eqb (strip s2) "") eqn:E2;
      [by apply String.eqb_eq in E2|].
    unfold normalize_group. simpl or_empty.
    by rewrite !strip_idempotent, Hs.
  - intros s.
    unfold normalize_kind, normalize_group, parse_amount, parse_date,
      group_for_category. simpl or_empty.
    by rewrite !strip_idempotent.
Qed.

(** The normalizers return their own canonical values unchanged: a kind
    that was returned is read as itself, and so is the group. *)
Theorem normalizers_fix_their_results (text : option string) :
  (forall kind, normalize_kind text = Ok kind ->
                normalize_kind (Some kind) = Ok kind)
  /\ normalize_group (Some (normalize_group text)) = normalize_group text
  /\ forall category,
      group_for_category category (Some (normalize_group text))
      = normalize_group text.
Proof.
  split; [|split].
  - intros kind [-> | ->]%normalize_kind_values; reflexivity.
  - pose proof (normalize_group_values text) as H.
    unfold group_names in H.
    repeat (apply elem_of_cons in H as [->|H]; [reflexivity|]).
    by apply elem_of_nil in H.
  - intros category. pose proof (normalize_group_values text) as H.
    unfold group_names in H.
    repeat (apply elem_of_cons in H as [->|H]; [reflexivity|]).
    by apply elem_of_nil in H.
Qed.

End spellings.


(** ** The command line *)

Section command_line.
Import Py budget.
Variable default_csv_path : string.

(** The loop of [parse_args] from any state: the flag is remembered, and
    the last other argument replaces the file name. *)
Lemma parse_args_loop (args : list string) :
  forall (no_plots : bool) (filename : option string),
    fold_left
      (fun '(no_plots, filename) a =>
         if String.eqb a "--no-plots" then (true, filename)
         else (no_plots, Some a))
      args (no_plots, filename)
    = (no_plots || bool_decide ("--no-plots" ∈ args),
       match last (filter (fun a => a <> "--no-plots") args) with
       | Some a => Some a
       | None => filename
       end).
Proof.
  induction args as [|a args IH]; intros no_plots filename; simpl.
  - by rewrite orb_false_r.
  - destruct (String.eqb a "--no-plots") eqn:Ha.
    + apply String.eqb_eq in Ha as ->. rewrite IH.
      rewrite filter_cons_False; [|by intros H].
      f_equal.
      rewrite (bool_decide_eq_true_2 ("--no-plots" ∈ "--no-plots" :: args));
        [|by left].
      by rewrite orb_true_r.
    + apply String.eqb_neq in Ha. rewrite IH.
      rewrite filter_cons_True by done. rewrite last_cons.
      replace (bool_decide ("--no-plots" ∈ a :: args))
        with (bool_decide ("--no-plots" ∈ args)).
      { by destruct (last (filter (fun a0 : string => a0 <> "--no-plots")
                             args)). }
      apply bool_decide_ext. rewrite elem_of_cons.
      split; [by right|]. by intros [<-|].
Qed.

(** [parse_args] reads every argument after the program name: plots are
    off exactly when "--no-plots" is among them, wherever it stands, and the
    file is the last of the other arguments, or the default file when there
    is none. *)
Theorem parse_args_reads_flag_and_last_file (argv : list string) :
  parse_args default_csv_path argv
  = (match last (filter (fun a => a <> "--no-plots") (drop 1 argv)) with
     | Some a => a
     | None => default_csv_path
     end,
     bool_decide ("--no-plots" ∈ drop 1 argv)).
Proof.
  unfold parse_args. rewrite parse_args_loop. simpl.
  by destruct (last (filter (fun a : string => a <> "--no-plots")
                       (drop 1 argv))).
Qed.

End command_line.


(** ** The keys and the months of the aggregates *)

Section aggregate_keys.
Import Py budget.
Variable year_text : Z -> string.
Context {num : Type} (zero : num) (add : num -> num -> num).

Local Abbreviation is_income :=
  (fun tx : transaction num => String.eqb (tx_kind tx) "income").
Local Abbreviation month_of :=
  (fun tx : transaction num => dashboard.month_key year_text (tx_date_obj tx)).

(** The keys under a month in the nested dictionaries. *)
Lemma nested_keys_fold (txs : list (transaction num)) :
  forall acc m k,
    let acc' := fold_left (dashboard.aggregate_tx year_text zero add) txs acc in
    (k ∈ dom (default ∅ (dashboard.monthly_cat acc' !! m))
     <-> k ∈ dom (default ∅ (dashboard.monthly_cat acc !! m))
         \/ exists tx, tx ∈ txs /\ is_income tx = false
                       /\ month_of tx = m /\ tx_category tx = k)
    /\ (k ∈ dom (default ∅ (dashboard.monthly_group acc' !! m))
        <-> k ∈ dom (default ∅ (dashboard.monthly_group acc !! m))
            \/ exists tx, tx ∈ txs /\ is_income tx = false
                          /\ month_of tx = m /\ tx_group tx = k).
Proof.
  induction txs as [|tx txs IH]; intros acc m k; simpl.
  - split; (split; [by left|]; intros [H|(tx & Htx & _)]; [done|];
            by apply elem_of_nil in Htx).
  - destruct (IH (dashboard.aggregate_tx year_text zero add acc tx) m k)
      as [Hc Hg].
    rewrite Hc, Hg. clear IH Hc Hg.
    unfold dashboard.aggregate_tx.
    destruct (String.eqb (tx_kind tx) "income") eqn:Hi; simpl.
    + split; (split;
        [intros [H|(tx' & Htx' & H)]; [by left|];
         right; exists tx'; split; [by right|done]
        |intros [H|(tx' & [->|Htx']%elem_of_cons & Hi' & H)];
           [by left|congruence|right; by exists tx']]).
    + unfold defaultdict_add2.
      destruct (decide (dashboard.month_key year_text (tx_date_obj tx) = m))
        as [<-|Hm].
      * rewrite !lookup_insert_eq. simpl.
        rewrite !dom_defaultdict_add, !elem_of_union, !elem_of_singleton.
        split; (split;
          [intros [[->|H]|(tx' & Htx' & H)];
             [right; exists tx; split; [by left|done]
             |by left
             |right; exists tx'; split; [by right|done]]
          |intros [H|(tx' & [->|Htx']%elem_of_cons & Hi' & Hm' & Hk)];
             [left; by right
             |left; by left
             |right; by exists tx']]).
      * rewrite !lookup_insert_ne by done.
        split; (split;
          [intros [H|(tx' & Htx' & H)]; [by left|];
           right; exists tx'; split; [by right|done]
          |intros [H|(tx' & [->|Htx']%elem_of_cons & Hi' & Hm' & Hk)];
             [by left|done|right; by exists tx']]).
Qed.

(** The months [compute_aggregates] reports are in ascending order, each
    once, and they are the months of the transactions' dates: a month with
    no transaction is not reported, and every transaction's month is. *)
Theorem months_are_the_months_of_the_transactions
    (txs : list (transaction num)) (m : string) :
  let agg := dashboard.compute_aggregates year_text zero add txs in
  StronglySorted String.le (dashboard.months agg)
  /\ NoDup (dashboard.months agg)
  /\ (m ∈ dashboard.months agg <-> exists tx, tx ∈ txs /\ month_of tx = m).
Proof.
  unfold dashboard.compute_aggregates. simpl. unfold sorted.
  split; [apply StronglySorted_merge_sort; apply _|].
  split.
  { rewrite merge_sort_Permutation. apply NoDup_elements. }
  rewrite merge_sort_Permutation, elem_of_elements, elem_of_union.
  destruct (aggregate_fold_projections year_text zero add txs
              (dashboard.mk_aggregates [] ∅ ∅ ∅ ∅ ∅ ∅)) as (-> & _ & _).
  rewrite monthly_income_fold, add_buckets_as_fold. simpl.
  rewrite !dom_fold_buckets, !dom_empty_L.
  split.
  - intros [[H|(tx & Htx & _ & Hm)]|[H|(tx & Htx & _ & Hm)]];
      try (by apply not_elem_of_empty in H); by exists tx.
  - intros (tx & Htx & Hm).
    destruct (String.eqb (tx_kind tx) "income") eqn:Hi.
    + left. right. by exists tx.
    + right. right. exists tx. by rewrite Hi.
Qed.

(** Incomes feed the income of their month and nothing else; every other
    transaction feeds the expense of its month and the sums of its category
    and of its group, in total and under its month: these dictionaries hold
    exactly the keys of such transactions. *)
Theorem aggregates_hold_the_keys_of_the_transactions
    (txs : list (transaction num)) :
  let agg := dashboard.compute_aggregates year_text zero add txs in
  (forall m, m ∈ dom (dashboard.monthly_income agg)
             <-> exists tx, tx ∈ txs /\ tx_kind tx = "income"
                            /\ month_of tx = m)
  /\ (forall m, m ∈ dom (dashboard.monthly_expense agg)
                <-> exists tx, tx ∈ txs /\ tx_kind tx <> "income"
                               /\ month_of tx = m)
  /\ (forall c, c ∈ dom (dashboard.totals_by_category agg)
                <-> exists tx, tx ∈ txs /\ tx_kind tx <> "income"
                               /\ tx_category tx = c)
  /\ (forall g, g ∈ dom (dashboard.totals_by_group agg)
                <-> exists tx, tx ∈ txs /\ tx_kind tx <> "income"
                               /\ tx_group tx = g)
  /\ (forall m c,
        c ∈ dom (default ∅ (dashboard.monthly_cat agg !! m))
        <-> exists tx, tx ∈ txs /\ tx_kind tx <> "income"
                       /\ month_of tx = m /\ tx_category tx = c)
  /\ (forall m g,
        g ∈ dom (default ∅ (dashboard.monthly_group agg !! m))
        <-> exists tx, tx ∈ txs /\ tx_kind tx <> "income"
                       /\ month_of tx = m /\ tx_group tx = g).
Proof.
  intros agg. unfold agg, dashboard.compute_aggregates. simpl.
  destruct (aggregate_fold_projections year_text zero add txs
              (dashboard.mk_aggregates [] ∅ ∅ ∅ ∅ ∅ ∅)) as (-> & -> & ->).
  rewrite monthly_income_fold, !add_buckets_as_fold. simpl.
  assert (Hneg : forall tx : transaction num,
             negb (String.eqb (tx_kind tx) "income") = true
             <-> tx_kind tx <> "income").
  { intros tx. rewrite negb_true_iff. apply String.eqb_neq. }
  assert (Hfalse : forall tx : transaction num,
             String.eqb (tx_kind tx) "income" = false
             <-> tx_kind tx <> "income").
  { intros tx. apply String.eqb_neq. }
  repeat split.
  1-8: rewrite dom_fold_buckets, dom_empty_L.
  1-8: try (intros [H|(tx & Htx & Hp & Hk)];
            [by apply not_elem_of_empty in H|]; exists tx;
            first [apply String.eqb_eq in Hp|apply Hneg in Hp]; done).
  1-4: try (intros (tx & Htx & Hp & Hk); right; exists tx;
            first [apply String.eqb_eq in Hp|apply Hneg in Hp]; done).
  all: destruct (nested_keys_fold txs
                   (dashboard.mk_aggregates [] ∅ ∅ ∅ ∅ ∅ ∅) m
                   ltac:(first [exact c|exact g])) as [Hc Hg];
    simpl in Hc, Hg; rewrite ?lookup_empty in Hc, Hg; simpl in Hc, Hg.
  all: first [rewrite Hc|rewrite Hg]; rewrite dom_empty_L.
  all: first
    [ intros [H|(tx & Htx & Hp & Hk)];
        [by apply not_elem_of_empty in H|]; exists tx;
        apply Hfalse in Hp; done
    | intros (tx & Htx & Hp & Hk); right; exists tx;
        apply Hfalse in Hp; done ].
Qed.

(** [sum_expenses_by_category] and [sum_expenses_by_group] hold exactly
    the categories and the groups of the transactions of kind expense. *)
Theorem sum_expenses_hold_the_keys_of_the_expenses
    (txs : list (transaction num)) :
  (forall c, c ∈ dom (sum_expenses_by_category zero add txs)
             <-> exists tx, tx ∈ txs /\ tx_kind tx = "expense"
                            /\ tx_category tx = c)
  /\ (forall g, g ∈ dom (sum_expenses_by_group zero add txs)
                <-> exists tx, tx ∈ txs /\ tx_kind tx = "expense"
                               /\ tx_group tx = g).
Proof.
  unfold sum_expenses_by_category, sum_expenses_by_group.
  split; intros k;
    rewrite (dom_fold_buckets zero add
               (fun tx => String.eqb (tx_kind tx) "expense")), dom_empty_L;
    (split;
     [intros [H|(tx & Htx & Hp & Hk)];
        [by apply not_elem_of_empty in H|];
      exists tx; by apply String.eqb_eq in Hp
     |intros (tx & Htx & Hp & Hk); right; exists tx;
      by apply String.eqb_eq in Hp]).
Qed.

End aggregate_keys.


(** ** Sums of the aggregates in exact arithmetic *)

Section aggregate_sums.
Import Py budget.
Variable year_text : Z -> string.
Context {num : Type} (zero : num) (add sub : num -> num -> num).
Hypothesis add_comm : forall a b, add a b = add b a.
Hypothesis add_assoc : forall a b c, add (add a b) c = add a (add b c).
Hypothesis add_zero_l : forall a, add zero a = a.

Local Abbreviation sumv := (fun d : gmap string num => sum zero add (values d)).

Local Abbreviation months_add_up := (Spec.months_add_up zero add).

Lemma lookup_defaultdict_add_eq (d : gmap string num) (k : string) (a : num) :
  defaultdict_add zero add d k a !! k = Some (add (default zero (d !! k)) a).
Proof. unfold defaultdict_add. by rewrite lookup_insert_eq. Qed.

Lemma lookup_defaultdict_add_ne (d : gmap string num) (k m : string)
    (a : num) :
  k <> m -> defaultdict_add zero add d k a !! m = d !! m.
Proof. intros H. unfold defaultdict_add. by rewrite lookup_insert_ne. Qed.

(** One turn of the loop keeps the months adding up. *)
Lemma months_add_up_step (acc : dashboard.aggregates) (tx : transaction num) :
  months_add_up acc ->
  months_add_up (dashboard.aggregate_tx year_text zero add acc tx).
Proof.
  intros H m. unfold Spec.months_add_up, dashboard.aggregate_tx.
  destruct (String.eqb (tx_kind tx) "income"); simpl; [apply H|].
  unfold defaultdict_add2.
  destruct (decide (dashboard.month_key year_text (tx_date_obj tx) = m))
    as [<-|Hm].
  - rewrite !lookup_insert_eq, lookup_defaultdict_add_eq. simpl.
    rewrite !(sum_values_defaultdict_add zero add add_comm add_assoc
                add_zero_l).
    destruct (H (dashboard.month_key year_text (tx_date_obj tx))) as [-> ->].
    done.
  - rewrite !lookup_insert_ne, lookup_defaultdict_add_ne by done. apply H.
Qed.

Lemma months_add_up_fold (txs : list (transaction num)) :
  forall acc,
    months_add_up acc ->
    months_add_up
      (fold_left (dashboard.aggregate_tx year_text zero add) txs acc).
Proof.
  induction txs as [|tx txs IH]; intros acc H; simpl; [done|].
  by apply IH, months_add_up_step.
Qed.


Lemma totals_fold_income (txs : list (transaction num)) :
  forall income expense,
    (fold_left
       (fun '(income, expense) tx =>
          if String.eqb (tx_kind tx) "income"
          then (add income (tx_amount tx), expense)
          else (income, add expense (tx_amount tx)))
       txs (income, expense)).1
    = fold_left
        (fun income tx =>
           if String.eqb (tx_kind tx) "income"
           then add income (tx_amount tx) else income) txs income.
Proof.
  induction txs as [|tx txs IH]; intros income expense; simpl; [done|].
  destruct (String.eqb (tx_kind tx) "income"); apply IH.
Qed.

Lemma monthly_income_sum (txs : list (transaction num)) :
  forall acc,
    sumv (dashboard.monthly_income
            (fold_left (dashboard.aggregate_tx year_text zero add) txs acc))
    = fold_left
        (fun income tx =>
           if String.eqb (tx_kind tx) "income"
           then add income (tx_amount tx) else income)
        txs (sumv (dashboard.monthly_income acc)).
Proof.
  induction txs as [|tx txs IH]; intros acc; simpl; [done|].
  rewrite IH. unfold dashboard.aggregate_tx.
  destruct (String.eqb (tx_kind tx) "income"); simpl; [|done].
  by rewrite (sum_values_defaultdict_add zero add add_comm add_assoc
                add_zero_l).
Qed.


End aggregate_sums.


(** ** The callbacks of the dashboard *)

Section callbacks.
Import Py Spec budget datetime.
Variable fromisoformat : string -> option date.
Variable pow_rest : float -> float -> option float.

Lemma parse_date_isoformat (d : date) :
  valid_date d = true ->
  parse_date fromisoformat (Some (isoformat d)) = Ok d.
Proof.
  intros Hv. change (isoformat d) with (render_iso d).
  rewrite parse_date_unfold. cbv zeta. simpl or_empty.
  rewrite (strip_no_space _ (render_iso_no_space d)).
  by rewrite (strptime_iso d Hv).
Qed.

Lemma rebuild_serializable (txs : list (transaction float)) :
  Forall (fun tx => valid_date (tx_date_obj tx) = true) txs ->
  forall acc,
    dashboard.rebuild_transactions fromisoformat acc
      (dashboard.serializable txs)
    = Ok (acc ++ txs)%list.
Proof.
  induction 1 as [|tx txs Hv _ IH]; intros acc.
  - cbn [dashboard.serializable map dashboard.rebuild_transactions].
    by rewrite app_nil_r.
  - cbn [dashboard.serializable map dashboard.rebuild_transactions
         dashboard.st_date_obj].
    rewrite (parse_date_isoformat _ Hv).
    cbn [bind dashboard.st_date dashboard.st_kind dashboard.st_amount
         dashboard.st_category dashboard.st_group dashboard.st_note].
    fold (dashboard.serializable txs).
    rewrite IH, <- app_assoc. by destruct tx.
Qed.

(** The store keeps the transactions: the list [update_figures] rebuilds
    from what [handle_upload] stored is the parsed list, every date coming
    back from its ISO text as the date it was. *)
Theorem store_round_trip (txs : list (transaction float)) :
  Forall (fun tx => valid_date (tx_date_obj tx) = true) txs ->
  dashboard.rebuild_transactions fromisoformat []
    (dashboard.serializable txs)
  = Ok txs.
Proof. intros H. by rewrite (rebuild_serializable txs H). Qed.

(** *** The monthly saving *)

Lemma ltb_leb (x y : float) :
  (x <? y)%float = true -> (x <=? y)%float = true.
Proof.
  rewrite ltb_spec, leb_spec. unfold SFltb, SFleb.
  by destruct (SFcompare _ _) as [[]|].
Qed.

Lemma max_0_nonneg (x : float) : (0 <=? dashboard.max_0 x)%float = true.
Proof.
  unfold dashboard.max_0.
  destruct (0 <? x)%float eqn:Hx; [by apply ltb_leb|reflexivity].
Qed.

(** The monthly saving fed to the projection is never negative and never
    not-a-number, whatever the average net and the input field hold; and
    when it comes from an average net that is not above 0, every projected
    value is 0. *)
Theorem monthly_saving_is_not_negative
    (avg_net : float) (monthly_saving_value : option float) :
  (0 <=? dashboard.monthly_saving avg_net monthly_saving_value)%float = true
  /\ ((0 <? avg_net)%float = false ->
      forall years rate,
        dashboard.future_value_monthly_contrib pow_rest
          (dashboard.monthly_saving avg_net None) years rate
        = Some 0%float).
Proof.
  split.
  - destruct monthly_saving_value; apply max_0_nonneg.
  - intros H years rate. unfold dashboard.monthly_saving, dashboard.max_0.
    rewrite H. unfold dashboard.future_value_monthly_contrib.
    by rewrite orb_true_r.
Qed.

(** *** The projected series *)

(** The three series have a value for each of the years 0 to 40 and start
    at 0; with a monthly saving that is not above 0 they are 0 throughout;
    and the baseline of a positive monthly saving is the saving times the
    number of months, whatever the power function does, and holds no
    error. *)
Theorem savings_projection_series (monthly_saving : float) :
  let series := dashboard.savings_projection pow_rest monthly_saving in
  (length series.1.1 = 41%nat /\ length series.1.2 = 41%nat
   /\ length series.2 = 41%nat)
  /\ (series.1.1 !! 0%nat = Some (Some 0%float)
      /\ series.1.2 !! 0%nat = Some (Some 0%float)
      /\ series.2 !! 0%nat = Some (Some 0%float))
  /\ ((monthly_saving <=? 0)%float = true ->
      series = (replicate 41 (Some 0%float), replicate 41 (Some 0%float),
                replicate 41 (Some 0%float)))
  /\ ((monthly_saving <=? 0)%float = false ->
      series.2
      = map (fun y => if y =? 0 then Some 0%float
                      else nf ← float_of_int (y * 12);
                           Some (monthly_saving * nf)%float)
          dashboard.years
      /\ Forall is_Some series.2).
Proof.
  intros series. unfold series, dashboard.savings_projection.
  cbn [fst snd].
  split; [by rewrite !length_map|].
  split; [done|].
  split.
  - intros H. unfold dashboard.future_value_monthly_contrib.
    rewrite H. by vm_compute.
  - intros H. unfold dashboard.future_value_monthly_contrib.
    rewrite H. vm_compute. split; [reflexivity|].
    repeat (constructor; [by eexists|]). constructor.
Qed.

End callbacks.


(** ** The four date formats never compete *)

Section exclusive_formats.
Import Py Spec budget datetime.

Local Abbreviation starts_with_day sep s :=
  ((exists c1 rest, s = String c1 (String sep rest))
   \/ (exists c1 c2 rest,
         s = String c1 (String c2 (String sep rest)) /\ isdigit c2 = true)).

Local Abbreviation starts_with_year s :=
  (exists c1 c2 c3 rest,
     s = String c1 (String c2 (String c3 rest))
     /\ isdigit c2 = true /\ isdigit c3 = true).

Lemma try_alts_Some {R : Type} (alts : list (list char_class)) (s : string)
    (k : string -> string -> option R) (r : R) :
  try_alts alts s k = Some r ->
  exists alt txt rest,
    alt ∈ alts /\ match_alt alt s = Some (txt, rest) /\ k txt rest = Some r.
Proof.
  induction alts as [|alt alts IH]; simpl; [done|].
  destruct (match_alt alt s) as [[txt rest]|] eqn:Hm.
  - destruct (k txt rest) as [r'|] eqn:Hk.
    + intros [= ->]. exists alt, txt, rest. by repeat split; [left|..].
    + intros H. destruct (IH H) as (a & t & r0 & Ha & H1 & H2).
      exists a, t, r0. by repeat split; [right|..].
  - intros H. destruct (IH H) as (a & t & r0 & Ha & H1 & H2).
    exists a, t, r0. by repeat split; [right|..].
Qed.

Lemma match_alt_cons (p : char_class) (alt : list char_class) (s : string)
    (txt rest : string) :
  match_alt (p :: alt) s = Some (txt, rest) ->
  exists c s' txt',
    s = String c s' /\ txt = String c txt' /\ p c = true
    /\ match_alt alt s' = Some (txt', rest).
Proof.
  simpl. destruct s as [|c s']; [done|].
  destruct (p c) eqn:Hp; [|done].
  destruct (match_alt alt s') as [[txt' rest']|] eqn:Hm; [|done].
  intros [= <- <-]. by exists c, s', txt'.
Qed.

Lemma match_alt_nil (s txt rest : string) :
  match_alt [] s = Some (txt, rest) -> txt = "" /\ rest = s.
Proof. by intros [= <- <-]. Qed.

Lemma re_match_literal_Some (c : ascii) (toks : list token) (s : string)
    (found : groups) (r : groups * string) :
  re_match (Literal c :: toks) s found = Some r ->
  exists s', s = String c s'.
Proof.
  simpl. destruct s as [|c' s']; [done|].
  destruct (Ascii.eqb_spec c' c) as [->|]; [|done]. by exists s'.
Qed.

Lemma day_classes_are_digits (c : ascii) :
  range "0" "1" c || isdigit c || range "1" "9" c = true ->
  isdigit c = true.
Proof.
  unfold range, isdigit, code.
  rewrite !orb_true_iff, !andb_true_iff, !Z.leb_le. simpl. lia.
Qed.

Lemma re_match_day_Some (sep : ascii) (toks : list token) (s : string)
    (found : groups) (r : groups * string) :
  re_match (Directive "d" :: Literal sep :: toks) s found = Some r ->
  starts_with_day sep s.
Proof.
  rewrite re_match_directive. intros H.
  apply try_alts_Some in H as (alt & txt & rest & Halt & Hm & Hk).
  apply re_match_literal_Some in Hk as [s' ->].
  change (alternatives "d")
    with [ [one "3"; range "0" "1"]; [range "1" "2"; isdigit];
           [one "0"; range "1" "9"]; [range "1" "9"];
           [one " "; range "1" "9"] ] in Halt.
  rewrite !elem_of_cons, elem_of_nil in Halt.
  destruct Halt as [->|[->|[->|[->|[->|[]]]]]];
    apply match_alt_cons in Hm as (c1 & s1 & t1 & -> & -> & Hc1 & Hm);
    try (apply match_alt_cons in Hm as (c2 & s2 & t2 & -> & -> & Hc2 & Hm));
    apply match_alt_nil in Hm as [-> <-];
    first [ left; by exists c1, s'
          | right; exists c1, c2, s'; split; [done|];
            apply day_classes_are_digits; rewrite Hc2;
            by rewrite ?orb_true_r ].
Qed.

Lemma re_match_year_Some (toks : list token) (s : string)
    (found : groups) (r : groups * string) :
  re_match (Directive "Y" :: toks) s found = Some r ->
  starts_with_year s.
Proof.
  rewrite re_match_directive. intros H.
  apply try_alts_Some in H as (alt & txt & rest & Halt & Hm & _).
  change (alternatives "Y")
    with [ [isdigit; isdigit; isdigit; isdigit] ] in Halt.
  apply elem_of_cons in Halt as [->|Halt]; [|by apply elem_of_nil in Halt].
  apply match_alt_cons in Hm as (c1 & s1 & t1 & -> & -> & Hc1 & Hm).
  apply match_alt_cons in Hm as (c2 & s2 & t2 & -> & -> & Hc2 & Hm).
  apply match_alt_cons in Hm as (c3 & s3 & t3 & -> & -> & Hc3 & Hm).
  by exists c1, c2, c3, s3.
Qed.

Lemma year_excludes_day (sep : ascii) (s : string) :
  starts_with_year s -> starts_with_day sep s -> isdigit sep = false ->
  False.
Proof.
  intros (c1 & c2 & c3 & rest & -> & H2 & H3)
    [(a1 & r1 & [= _ -> _])|(a1 & a2 & r1 & [= _ _ -> _] & _)] Hsep;
    congruence.
Qed.

Lemma day_separators_agree (sep1 sep2 : ascii) (s : string) :
  starts_with_day sep1 s -> starts_with_day sep2 s ->
  isdigit sep1 = false -> isdigit sep2 = false -> sep1 = sep2.
Proof.
  intros [(a1 & r1 & ->)|(a1 & a2 & r1 & -> & Ha)]
    [(b1 & r2 & [= _ E _])|(b1 & b2 & r2 & [= _ E1 E2] & Hb)] H1 H2;
    subst; congruence.
Qed.

Lemma strptime_Some (value fmt : string) (d : date) :
  strptime value fmt = Some d ->
  exists r, re_match (compile fmt) value [] = Some r.
Proof.
  unfold strptime. destruct (re_match _ _ _) as [r|]; [|done]. by exists r.
Qed.

Lemma strptime_year_first (value : string) (d : date) :
  strptime value "%Y-%m-%d" = Some d -> starts_with_year value.
Proof.
  intros H. apply strptime_Some in H as [r H].
  by apply re_match_year_Some in H.
Qed.

Lemma strptime_day_first (sep : ascii) (value : string) (d : date) :
  sep <> "%"%char ->
  strptime value
    ("%d" +:+ String sep "%m" +:+ String sep "%Y") = Some d ->
  starts_with_day sep value.
Proof.
  intros Hsep H. apply strptime_Some in H as [r H].
  apply (re_match_day_Some sep
           [Directive "m"; Literal sep; Directive "Y"] value [] r).
  revert H. clear -Hsep.
  destruct sep as [[] [] [] [] [] [] [] []]; try done.
Qed.

Lemma formats_exclusive (value f1 f2 : string) (d1 d2 : date) :
  f1 ∈ formats -> f2 ∈ formats ->
  strptime value f1 = Some d1 -> strptime value f2 = Some d2 -> f1 = f2.
Proof.
  unfold formats. rewrite !elem_of_cons, !elem_of_nil.
  intros [->|[->|[->|[->|[]]]]] [->|[->|[->|[->|[]]]]] H1 H2;
    try reflexivity; exfalso;
    try apply strptime_year_first in H1;
    try apply strptime_year_first in H2;
    try apply (strptime_day_first "." value) in H1;
    try apply (strptime_day_first "/" value) in H1;
    try apply (strptime_day_first "-" value) in H1;
    try apply (strptime_day_first "." value) in H2;
    try apply (strptime_day_first "/" value) in H2;
    try apply (strptime_day_first "-" value) in H2;
    try done;
    first [ exact (year_excludes_day _ value H1 H2 eq_refl)
          | exact (year_excludes_day _ value H2 H1 eq_refl)
          | by pose proof (day_separators_agree _ _ value H1 H2
                             eq_refl eq_refl) ].
Qed.

Lemma try_formats_Some (value : string) (fmts : list string) (d : date) :
  try_formats value fmts = Some d ->
  exists fmt, fmt ∈ fmts /\ strptime value fmt = Some d.
Proof.
  induction fmts as [|f fmts IH]; simpl; [done|].
  destruct (strptime value f) as [d'|] eqn:Hf.
  - intros [= ->]. exists f. by split; [left|].
  - intros H. destruct (IH H) as (g & Hg & Hd). exists g. by split; [right|].
Qed.

Lemma try_formats_None (value : string) (fmts : list string) :
  try_formats value fmts = None ->
  forall fmt, fmt ∈ fmts -> strptime value fmt = None.
Proof.
  induction fmts as [|f fmts IH]; simpl; intros H fmt Hfmt.
  - by apply elem_of_nil in Hfmt.
  - destruct (strptime value f) as [d'|] eqn:Hf; [done|].
    apply elem_of_cons in Hfmt as [->|Hfmt]; [done|by apply IH].
Qed.

Lemma try_formats_the_one (value : string) (fmts : list string)
    (fmt : string) (d : date) :
  (forall f1 f2 d1 d2, f1 ∈ fmts -> f2 ∈ fmts ->
     strptime value f1 = Some d1 -> strptime value f2 = Some d2 ->
     f1 = f2) ->
  fmt ∈ fmts -> strptime value fmt = Some d ->
  try_formats value fmts = Some d.
Proof.
  induction fmts as [|f fmts IH]; intros Hex Hfmt Hd.
  - by apply elem_of_nil in Hfmt.
  - simpl. destruct (strptime value f) as [d'|] eqn:Hf.
    + assert (f = fmt) as -> by (eapply Hex; eauto; by left).
      congruence.
    + apply elem_of_cons in Hfmt as [->|Hfmt]; [congruence|].
      apply IH; [|done..].
      intros f1 f2 d1 d2 ? ?. apply Hex; by right.
Qed.

(** At most one of the four formats of [parse_date] parses a given text,
    so the order in which the loop tries them never decides the date. *)
Theorem date_formats_never_compete (value : string) :
  (forall f1 f2 d1 d2,
     f1 ∈ formats -> f2 ∈ formats ->
     strptime value f1 = Some d1 -> strptime value f2 = Some d2 ->
     f1 = f2)
  /\ (forall fmts,
        fmts ≡ₚ formats ->
        try_formats value fmts = try_formats value formats).
Proof.
  split; [apply formats_exclusive|].
  intros fmts Hp.
  destruct (try_formats value formats) as [d|] eqn:H.
  - apply try_formats_Some in H as (f & Hf & Hd).
    apply (try_formats_the_one value fmts f d); [|by rewrite Hp|done].
    intros f1 f2 d1 d2. rewrite !Hp. apply formats_exclusive.
  - destruct (try_formats value fmts) as [d|] eqn:H'; [|done].
    apply try_formats_Some in H' as (f & Hf & Hd).
    rewrite Hp in Hf. by rewrite (try_formats_None _ _ H f Hf) in Hd.
Qed.

End exclusive_formats.

(** ** The theorems at sample inputs *)

Section samples.
Import Py Spec budget datetime Examples.

Local Abbreviation aggregates_Z :=
  (dashboard.compute_aggregates str_of_int 0 Z.add txs_Z).

Lemma accepted_rows_store_the_parsed_amount_sample :
  load_transactions no_fromisoformat (Some header) template_rows
  = Ok template_txs
  /\ Forall2 stores_parsed_amount template_rows template_txs.
Proof.
  assert (H : load_transactions no_fromisoformat (Some header) template_rows
              = Ok template_txs) by (by vm_compute).
  split; [exact H|].
  exact (proj1 (accepted_rows_store_the_parsed_amount no_fromisoformat
                  (Some header) template_rows None) template_txs H).
Defined.





Lemma parse_date_formats_sample :
  valid_date (mk_date 2024 2 29) = true
  /\ parse_date no_fromisoformat (Some "2024-02-29") = Ok (mk_date 2024 2 29)
  /\ parse_date no_fromisoformat (Some "29.02.2024") = Ok (mk_date 2024 2 29)
  /\ parse_date no_fromisoformat (Some "29/02/2024") = Ok (mk_date 2024 2 29)
  /\ parse_date no_fromisoformat (Some "29-02-2024") = Ok (mk_date 2024 2 29).
Proof.
  split; [reflexivity|].
  exact (proj2 (parse_date_formats no_fromisoformat) (mk_date 2024 2 29)
           eq_refl).
Defined.

Lemma parse_amount_contract_sample :
  str_all amount_char "CHF 12.50" = false
  /\ parse_amount (Some "CHF 12.50")
     = Raise (ValueError "could not convert string to float: 'CHF12.50'").
Proof.
  split; [reflexivity|].
  exact (proj2 (proj2 (proj2 parse_amount_contract)) "CHF 12.50" eq_refl).
Defined.

Lemma upload_names_every_missing_column_sample :
  ~ header_complete ["date"; "category"]
  /\ exists cols : list string,
      dashboard.parse_transactions_from_upload no_fromisoformat
        (Some ["date"; "category"]) template_rows None
      = Raise (ValueError ("Spalten fehlen: " +:+ String.concat ", " cols))
      /\ Sorted String.le cols
      /\ NoDup cols
      /\ forall col,
          col ∈ cols <-> col ∈ required /\ col ∉ ["date"; "category"].
Proof.
  assert (H : ~ header_complete ["date"; "category"]).
  { unfold header_complete, required. rewrite !Forall_cons.
    intros (_ & Hkind & _). apply list_elem_of_In in Hkind.
    simpl in Hkind. by destruct Hkind as [|[|]]. }
  split; [exact H|].
  exact (upload_names_every_missing_column no_fromisoformat
           ["date"; "category"] template_rows None H).
Defined.

Lemma header_without_kind : ~ header_complete ["date"; "category"].
Proof.
  unfold header_complete, required. rewrite !Forall_cons.
  intros (_ & Hkind & _). apply list_elem_of_In in Hkind.
  simpl in Hkind. by destruct Hkind as [|[|]].
Qed.

Lemma load_transactions_missing_column_sample :
  ~ header_complete ["date"; "category"]
  /\ exists pre col post,
      required = (pre ++ col :: post)%list
      /\ Forall (fun c => c ∈ ["date"; "category"]) pre
      /\ (col ∉ ["date"; "category"])
      /\ load_transactions no_fromisoformat (Some ["date"; "category"])
           template_rows
         = Raise (ValueError ("Spalte fehlt: " +:+ col)).
Proof.
  split; [exact header_without_kind|].
  exact (load_transactions_missing_column no_fromisoformat
           ["date"; "category"] template_rows header_without_kind).
Defined.

Lemma loaded_transactions_are_well_formed_sample :
  returns_valid_dates no_fromisoformat
  /\ load_transactions no_fromisoformat (Some header) template_rows
     = Ok template_txs
  /\ Forall well_formed template_txs.
Proof.
  assert (Hf : returns_valid_dates no_fromisoformat) by (by intros value d).
  assert (H : load_transactions no_fromisoformat (Some header) template_rows
              = Ok template_txs) by (by vm_compute).
  split; [exact Hf|]. split; [exact H|].
  exact (proj1 (loaded_transactions_are_well_formed no_fromisoformat
                  (Some header) template_rows None Hf) template_txs H).
Defined.



Lemma store_round_trip_sample :
  Forall (fun tx => valid_date (tx_date_obj tx) = true) template_txs
  /\ dashboard.rebuild_transactions no_fromisoformat []
       (dashboard.serializable template_txs)
     = Ok template_txs.
Proof.
  assert (H : Forall (fun tx => valid_date (tx_date_obj tx) = true)
                template_txs) by (by repeat constructor).
  split; [exact H|].
  exact (store_round_trip no_fromisoformat template_txs H).
Defined.

End samples.
